(** * PySide2 OpenGL tutorials: the rectangle, cube and event widgets

    A shallow embedding of the Python code shown in the tutorial notebooks
    [02-rectangle], [05-cube] and [06-events].

    - Python [int]s are [Z]; Python and C [float]s are rationals ([Q])
      standing for the literal written in the source (no rounding is
      modelled, and no statement below depends on rounding).
    - A widget method is a computation in a small monad: it threads the
      Python-side fields of [self], collects the calls it makes on the Qt
      and OpenGL objects, in order, and may raise a Python exception.
    - A [QMatrix4x4] is the list of library transformations applied to the
      identity matrix, in the order of the method calls. *)

From Stdlib Require Import ZArith QArith List String Bool Lia.
Import ListNotations.
Open Scope Z_scope.

Set Implicit Arguments.

(* ================================================================== *)
(** * Python values *)

Inductive PyExn : Type :=
| ZeroDivisionError
| AttributeError.

(** [float(n)] for an [int]: exact on the integers of magnitude up to
    2^53, which covers every slider value and every difference of two. *)
Definition py_float (n : Z) : Q := inject_Z n.

(** [a / b] on two [int]s: true division, raising on a zero divisor. *)
Definition py_truediv (a b : Z) : PyExn + Q :=
  if b =? 0 then inl ZeroDivisionError
  else inr (inject_Z a / inject_Z b)%Q.

(* ================================================================== *)
(** * Qt value types *)

Record QVector3D : Type := vec3 { vx : Q; vy : Q; vz : Q }.
Record QVector4D : Type := vec4 { wx : Q; wy : Q; wz : Q; ww : Q }.

(** One transformation applied to a [QMatrix4x4] by a library method. *)
Inductive MatOp : Type :=
| perspective (fov aspect near far : Q)
| translate (v : QVector3D)
| rotate (angle : Z) (axis : QVector3D).

(** [QMatrix4x4()] is the identity: no transformation applied yet. *)
Definition QMatrix4x4 : Type := list MatOp.
Definition QMatrix4x4_new : QMatrix4x4 := [].

(** Modelled from the spec: the camera class ([camera.py] is not among the
    sources).  The spec's data model gives its state: position, front, up
    and right vectors, yaw, pitch and zoom. *)
Record Camera : Type := mkCamera {
  position : QVector3D;
  front : QVector3D;
  up : QVector3D;
  right : QVector3D;
  yaw : Q;
  pitch : Q;
  zoom : Q
}.

Definition set_position (v : QVector3D) (c : Camera) : Camera :=
  mkCamera v (front c) (up c) (right c) (yaw c) (pitch c) (zoom c).
Definition set_front (v : QVector3D) (c : Camera) : Camera :=
  mkCamera (position c) v (up c) (right c) (yaw c) (pitch c) (zoom c).
Definition set_up (v : QVector3D) (c : Camera) : Camera :=
  mkCamera (position c) (front c) v (right c) (yaw c) (pitch c) (zoom c).

(** The methods of the camera that the widgets call and whose bodies are
    in [camera.py]. *)
Class CameraOps : Type := {
  lookAround : forall (xoffset yoffset : Q) (pitchBound : bool), Camera -> Camera;
  move : forall (direction : string), Camera -> Camera
}.

(* ================================================================== *)
(** * OpenGL constants (the values of [pygl.GL_*]) *)

Module pygl.
Definition GL_FALSE : Z := 0.
Definition GL_TRIANGLES : Z := 4.
Definition GL_DEPTH_BUFFER_BIT : Z := 256.
Definition GL_COLOR_BUFFER_BIT : Z := 16384.
Definition GL_DEPTH_TEST : Z := 2929.
Definition GL_TEXTURE_2D : Z := 3553.
Definition GL_UNSIGNED_INT : Z := 5125.
Definition GL_FLOAT : Z := 5126.
End pygl.

(** [ctypes.sizeof(ctypes.c_float)] *)
Definition sizeof_c_float : Z := 4.

(* ================================================================== *)
(** * Calls made on the Qt and OpenGL objects *)

Inductive TexName : Type := texture1_obj | texture2_obj.
Inductive Filter : Type := Nearest | Linear.
Inductive WrapDir : Type := DirectionS | DirectionT.
Inductive WrapMode : Type := Repeat.

(** A value given to [program.setUniformValue].  The view matrix comes out
    of [camera.getViewMatrix()], whose body is in [camera.py]: it is kept
    as the camera state it was computed from. *)
Inductive UniformValue : Type :=
| UMatrix (m : QMatrix4x4)
| UViewMatrixOf (c : Camera)
| UInt (n : Z).

Inductive Printed : Type :=
| PStr (s : string)
| PGlInfo
| PLinked (label : string).

Inductive Call : Type :=
(* Python side *)
| py_print (what : Printed)
(* QOpenGLContext and its functions *)
| context_create
| context_aboutToBeDestroyed_connect_cleanUpGl
| initializeOpenGLFunctions
| glClearColor (r g b a : Q)
| glEnable (cap : Z)
| glClear (mask : Z)
| glEnableVertexAttribArray (index : Z)
| glVertexAttribPointer (index size type normalized stride offset : Z)
| glDrawArrays (mode first count : Z)
| glDrawElements (mode count type : Z) (indices : list Z)
(* QOpenGLShaderProgram *)
| program_new
| loadVertexShader (name : string)
| loadFragmentShader (name : string)
| program_addShader_vertex
| program_addShader_fragment
| program_bindAttributeLocation (name : string) (location : Z)
| program_link
| program_bind
| program_release
| program_setUniformValue (name : string) (v : UniformValue)
(* QOpenGLBuffer *)
| vbo_create
| vbo_bind
| vbo_allocate (data : list Q) (count : Z)
| vbo_release
(* QOpenGLVertexArrayObject *)
| vao_create
| vao_bind
| vaoBinder_new
| vaoBinder_del
(* QOpenGLTexture *)
| texture_new (t : TexName)
| texture_create (t : TexName)
| texture_bind (t : TexName) (texunit : Z)
| texture_setData (t : TexName) (image : string)
| texture_setMinMagFilters (t : TexName) (minf magf : Filter)
| texture_setWrapMode (t : TexName) (d : WrapDir) (m : WrapMode)
| texture_release (t : TexName).

(** The vertex buffer object: what [allocate] copied into it. *)
Record QOpenGLBuffer : Type := mkBuffer {
  buf_created : bool;
  buf_bound : bool;
  buf_data : list Q;
  buf_bytes : Z
}.

Definition QOpenGLBuffer_new : QOpenGLBuffer := mkBuffer false false [] 0.

(* ================================================================== *)
(** * The monad of widget methods *)

Inductive Outcome (A : Type) : Type :=
| Returned (a : A)
| Raised (e : PyExn).
Arguments Returned {A} a.
Arguments Raised {A} e.

Section Method.
Variable S : Type.

Definition M (A : Type) : Type := S -> S * list Call * Outcome A.

Definition ret {A} (a : A) : M A := fun s => (s, [], Returned a).

Definition bind {A B} (m : M A) (f : A -> M B) : M B :=
  fun s =>
    match m s with
    | (s1, t1, Returned a) =>
        match f a s1 with
        | (s2, t2, o) => (s2, t1 ++ t2, o)
        end
    | (s1, t1, Raised e) => (s1, t1, Raised e)
    end.

Definition gets {A} (f : S -> A) : M A := fun s => (s, [], Returned (f s)).
Definition modify (f : S -> S) : M unit := fun s => (f s, [], Returned tt).
Definition call (c : Call) : M unit := fun s => (s, [c], Returned tt).
Definition raise {A} (e : PyExn) : M A := fun s => (s, [], Raised e).

(** A Python expression that either has a value or raises. *)
Definition eval {A} (r : PyExn + A) : M A :=
  match r with
  | inl e => raise e
  | inr a => ret a
  end.

(** [for i, x in enumerate(l): body], counting from [i]. *)
Fixpoint for_enumerate {A} (i : Z) (l : list A) (body : Z -> A -> M unit)
  : M unit :=
  match l with
  | [] => ret tt
  | x :: l' => bind (body i x) (fun _ => for_enumerate (i + 1) l' body)
  end.

Definition state_after {A} (m : M A) (s : S) : S := fst (fst (m s)).
Definition calls_of {A} (m : M A) (s : S) : list Call := snd (fst (m s)).
Definition outcome_of {A} (m : M A) (s : S) : Outcome A := snd (m s).
End Method.

Arguments ret {S A} a.
Arguments bind {S A B} m f.
Arguments gets {S A} f.
Arguments modify {S} f.
Arguments call {S} c.
Arguments raise {S A} e.
Arguments eval {S A} r.
Arguments for_enumerate {S A} i l body.
Arguments state_after {S A} m s.
Arguments calls_of {S A} m s.
Arguments outcome_of {S A} m s.

Declare Scope method_scope.
Delimit Scope method_scope with method.
Notation "x <- c1 ;; c2" := (bind c1 (fun x => c2))
  (at level 61, c1 at next level, right associativity) : method_scope.
Notation "c1 ;; c2" := (bind c1 (fun _ => c2))
  (at level 61, right associativity) : method_scope.

(** [obj.method(...)] on an attribute that may still be [None]. *)
Definition on_object {S A} (o : option A) : M S A :=
  match o with
  | Some a => ret a
  | None => raise AttributeError
  end.

(** Reading the calls back. *)
Definition draw_arrays_of (c : Call) : option (Z * Z * Z) :=
  match c with
  | glDrawArrays mode first count => Some (mode, first, count)
  | _ => None
  end.

Fixpoint filter_map {A B} (f : A -> option B) (l : list A) : list B :=
  match l with
  | [] => []
  | a :: l' =>
      match f a with
      | Some b => b :: filter_map f l'
      | None => filter_map f l'
      end
  end.

Definition uniform_of (name : string) (c : Call) : option UniformValue :=
  match c with
  | program_setUniformValue n v => if String.eqb n name then Some v else None
  | _ => None
  end.

(** The values given to the uniform [name], in order. *)
Definition uniforms_set (name : string) (t : list Call) : list UniformValue :=
  filter_map (uniform_of name) t.

(** The [glDrawArrays] calls, in order. *)
Definition draw_arrays (t : list Call) : list (Z * Z * Z) :=
  filter_map draw_arrays_of t.

(** Each [glDrawArrays] call with the value the uniform [model] has when
    the call is made ([cur] is its value before the first call of [t]). *)
Fixpoint draws_with_model (cur : option UniformValue) (t : list Call)
  : list (option UniformValue * (Z * Z * Z)) :=
  match t with
  | [] => []
  | c :: t' =>
      match c with
      | program_setUniformValue n v =>
          if String.eqb n "model" then draws_with_model (Some v) t'
          else draws_with_model cur t'
      | glDrawArrays mode first count =>
          (cur, (mode, first, count)) :: draws_with_model cur t'
      | _ => draws_with_model cur t'
      end
  end.

(** [ndarray.size]: the number of elements of the array. *)
Definition size {A} (a : list A) : Z := Z.of_nat (List.length a).

(* ================================================================== *)
(** * 02-rectangle: [RectangleGL] *)

Module Rectangle.

Record RectangleGL : Type := mkRectangleGL {
  indices : list Z;
  vertexData : list Q;
  rectColor : QVector4D
}.

(** [RectangleGL.__init__]: the fields set from literals. *)
Definition init : RectangleGL :=
  {| indices := [0; 1; 3;   (* first triangle *)
                 1; 2; 3];  (* second triangle *)
     vertexData := [ 0.5;  0.5; 0.0;   (* top right *)
                     0.5; -0.5; 0.0;   (* bottom right *)
                    -0.5; -0.5; 0.0;   (* bottom left *)
                    -0.5;  0.5; 0.0]%Q; (* top left *)
     rectColor := vec4 0.0 1.0 1.0 0.0 |}.

(** [RectangleGL.paintGL] *)
Definition paintGL : M RectangleGL unit :=
  (call (glClear pygl.GL_COLOR_BUFFER_BIT) ;;
   call vaoBinder_new ;;
   call program_bind ;;
   n <- gets (fun self => size (indices self)) ;;
   bytes <- gets indices ;;
   call (glDrawElements pygl.GL_TRIANGLES n pygl.GL_UNSIGNED_INT bytes) ;;
   call vaoBinder_del ;;
   call program_release)%method.

(** The corners held by [vertexData]: three floats each. *)
Definition vertex_count (self : RectangleGL) : Z := size (vertexData self) / 3.

(** The index array read three by three. *)
Fixpoint triples (l : list Z) : list (Z * Z * Z) :=
  match l with
  | a :: b :: c :: l' => (a, b, c) :: triples l'
  | _ => []
  end.

Definition draw_elements_of (c : Call) : option (Z * Z * Z * list Z) :=
  match c with
  | glDrawElements mode count type ix => Some (mode, count, type, ix)
  | _ => None
  end.

End Rectangle.

(* ================================================================== *)
(** * The vertex buffer methods, over any widget that owns a [vbo] *)

Section Vbo.
Variable S : Type.
Variable get_vbo : S -> QOpenGLBuffer.
Variable put_vbo : QOpenGLBuffer -> S -> S.

Definition on_vbo (f : QOpenGLBuffer -> QOpenGLBuffer) : M S unit :=
  modify (fun self => put_vbo (f (get_vbo self)) self).

Definition vbo_create_m : M S unit :=
  (on_vbo (fun b => mkBuffer true (buf_bound b) (buf_data b) (buf_bytes b)) ;;
   call vbo_create)%method.

Definition vbo_bind_m : M S unit :=
  (on_vbo (fun b => mkBuffer (buf_created b) true (buf_data b) (buf_bytes b)) ;;
   call vbo_bind)%method.

Definition vbo_release_m : M S unit :=
  (on_vbo (fun b => mkBuffer (buf_created b) false (buf_data b) (buf_bytes b)) ;;
   call vbo_release)%method.

Definition vbo_allocate_m (data : list Q) (count : Z) : M S unit :=
  (on_vbo (fun b => mkBuffer (buf_created b) (buf_bound b) data count) ;;
   call (vbo_allocate data count))%method.
End Vbo.

(* ================================================================== *)
(** * 05-cube: [CubeGL] *)

Module Cube.

Record CubeGL : Type := mkCubeGL {
  camera : Camera;
  image1 : string;
  image2 : string;
  vbo : QOpenGLBuffer;
  texture1 : option TexName;
  texture2 : option TexName;
  texUnit1 : Z;
  texUnit2 : Z;
  cubeVertices : list Q;
  cubeCoords : list QVector3D;
  (* QWidget geometry, read through [self.width()] and [self.height()] *)
  width : Z;
  height : Z
}.

Definition put_vbo (b : QOpenGLBuffer) (self : CubeGL) : CubeGL :=
  mkCubeGL (camera self) (image1 self) (image2 self) b
           (texture1 self) (texture2 self) (texUnit1 self) (texUnit2 self)
           (cubeVertices self) (cubeCoords self) (width self) (height self).

Definition put_texture1 (t : option TexName) (self : CubeGL) : CubeGL :=
  mkCubeGL (camera self) (image1 self) (image2 self) (vbo self)
           t (texture2 self) (texUnit1 self) (texUnit2 self)
           (cubeVertices self) (cubeCoords self) (width self) (height self).

Definition put_texture2 (t : option TexName) (self : CubeGL) : CubeGL :=
  mkCubeGL (camera self) (image1 self) (image2 self) (vbo self)
           (texture1 self) t (texUnit1 self) (texUnit2 self)
           (cubeVertices self) (cubeCoords self) (width self) (height self).

(** The literal of [self.cubeVertices]: per corner, a position [vec3]
    and a texture coordinate [vec2]. *)
Definition cubeVertices_literal : list Q :=
  [ -0.5; -0.5; -0.5;  0.0; 0.0;
     0.5; -0.5; -0.5;  1.0; 0.0;
     0.5;  0.5; -0.5;  1.0; 1.0;
     0.5;  0.5; -0.5;  1.0; 1.0;
    -0.5;  0.5; -0.5;  0.0; 1.0;
    -0.5; -0.5; -0.5;  0.0; 0.0;

    -0.5; -0.5;  0.5;  0.0; 0.0;
     0.5; -0.5;  0.5;  1.0; 0.0;
     0.5;  0.5;  0.5;  1.0; 1.0;
     0.5;  0.5;  0.5;  1.0; 1.0;
    -0.5;  0.5;  0.5;  0.0; 1.0;
    -0.5; -0.5;  0.5;  0.0; 0.0;

    -0.5;  0.5;  0.5;  1.0; 0.0;
    -0.5;  0.5; -0.5;  1.0; 1.0;
    -0.5; -0.5; -0.5;  0.0; 1.0;
    -0.5; -0.5; -0.5;  0.0; 1.0;
    -0.5; -0.5;  0.5;  0.0; 0.0;
    -0.5;  0.5;  0.5;  1.0; 0.0;

     0.5;  0.5;  0.5;  1.0; 0.0;
     0.5;  0.5; -0.5;  1.0; 1.0;
     0.5; -0.5; -0.5;  0.0; 1.0;
     0.5; -0.5; -0.5;  0.0; 1.0;
     0.5; -0.5;  0.5;  0.0; 0.0;
     0.5;  0.5;  0.5;  1.0; 0.0;

    -0.5; -0.5; -0.5;  0.0; 1.0;
     0.5; -0.5; -0.5;  1.0; 1.0;
     0.5; -0.5;  0.5;  1.0; 0.0;
     0.5; -0.5;  0.5;  1.0; 0.0;
    -0.5; -0.5;  0.5;  0.0; 0.0;
    -0.5; -0.5; -0.5;  0.0; 1.0;

    -0.5;  0.5; -0.5;  0.0; 1.0;
     0.5;  0.5; -0.5;  1.0; 1.0;
     0.5;  0.5;  0.5;  1.0; 0.0;
     0.5;  0.5;  0.5;  1.0; 0.0;
    -0.5;  0.5;  0.5;  0.0; 0.0;
    -0.5;  0.5; -0.5;  0.0; 1.0 ]%Q.

(** The literal of [self.cubeCoords]: the positions of the cubes. *)
Definition cubeCoords_literal : list QVector3D :=
  [ vec3 0.0 0.0 0.0;
    vec3 2.0 5.0 (-15.0);
    vec3 (-1.5) (-2.2) (-2.5);
    vec3 (-3.8) (-2.0) (-12.3);
    vec3 2.4 (-0.4) (-3.5);
    vec3 (-1.7) 3.0 (-7.5);
    vec3 1.3 (-2.0) (-2.5);
    vec3 1.5 2.0 (-2.5);
    vec3 1.5 0.2 (-1.5);
    vec3 (-1.3) 1.0 (-1.5) ]%Q.

(** [CubeGL.__init__].  [QtCamera()] is built by [camera.py]: the fresh
    camera is the argument [cam0]; so is the geometry Qt gives the
    widget.  The shader paths and the [core] flag are left out: no
    method below reads them. *)
Definition init (cam0 : Camera) (w h : Z) : CubeGL :=
  {| camera := set_up (vec3 0.0 1.0 0.0)
                 (set_front (vec3 0.0 0.0 (-1.0))
                    (set_position (vec3 0.0 0.0 3.0) cam0));
     image1 := "im0.png";
     image2 := "im1.png";
     vbo := QOpenGLBuffer_new;
     texture1 := None;
     texture2 := None;
     texUnit1 := 0;
     texUnit2 := 1;
     cubeVertices := cubeVertices_literal;
     cubeCoords := cubeCoords_literal;
     width := w;
     height := h |}.

Definition new_texture (t : TexName)
    (put : option TexName -> CubeGL -> CubeGL)
    (texunit : CubeGL -> Z) (image : CubeGL -> string) (f : Filter)
  : M CubeGL unit :=
  (modify (put (Some t)) ;;
   call (texture_new t) ;;
   call (texture_create t) ;;
   u <- gets texunit ;;
   call (texture_bind t u) ;;
   im <- gets image ;;
   call (texture_setData t im) ;;
   call (texture_setMinMagFilters t f f) ;;
   call (texture_setWrapMode t DirectionS Repeat) ;;
   call (texture_setWrapMode t DirectionT Repeat))%method.

(** [CubeGL.initializeGL] *)
Definition initializeGL : M CubeGL unit :=
  (call (py_print (PStr "gl initial")) ;;
   call (py_print PGlInfo) ;;
   call context_create ;;
   call context_aboutToBeDestroyed_connect_cleanUpGl ;;
   call initializeOpenGLFunctions ;;
   call (glClearColor 0.0 0.4 0.4 0) ;;
   call (glEnable pygl.GL_DEPTH_TEST) ;;
   call (glEnable pygl.GL_TEXTURE_2D) ;;
   (* cube shader *)
   call program_new ;;
   call (loadVertexShader "cube") ;;
   call (loadFragmentShader "cube") ;;
   call program_addShader_vertex ;;
   call program_addShader_fragment ;;
   call (program_bindAttributeLocation "aPos" 0) ;;
   call (program_bindAttributeLocation "aTexCoord" 1) ;;
   call program_link ;;
   call (py_print (PLinked "cube shader program is linked: ")) ;;
   call program_bind ;;
   (* projection matrix *)
   fov <- gets (fun self => zoom (camera self)) ;;
   w <- gets width ;;
   h <- gets height ;;
   aspect <- eval (py_truediv w h) ;;
   let projectionMatrix := QMatrix4x4_new in
   let projectionMatrix :=
     projectionMatrix ++ [perspective fov aspect 0.2 100.0] in
   call (program_setUniformValue "projection" (UMatrix projectionMatrix)) ;;
   (* view/camera matrix *)
   cam <- gets camera ;;
   call (program_setUniformValue "view" (UViewMatrixOf cam)) ;;
   u1 <- gets texUnit1 ;;
   call (program_setUniformValue "myTexture1" (UInt u1)) ;;
   u2 <- gets texUnit2 ;;
   call (program_setUniformValue "myTexture2" (UInt u2)) ;;
   (* vbo *)
   vbo_create_m vbo put_vbo ;;
   vbo_bind_m vbo put_vbo ;;
   let floatSize := sizeof_c_float in
   verts <- gets cubeVertices ;;
   vbo_allocate_m vbo put_vbo verts (floatSize * size verts) ;;
   (* vao *)
   call vao_create ;;
   call vaoBinder_new ;;
   call (glEnableVertexAttribArray 0) ;;
   call (glVertexAttribPointer 0 3 pygl.GL_FLOAT pygl.GL_FALSE
           (5 * floatSize) 0) ;;
   call (glEnableVertexAttribArray 1) ;;
   call (glVertexAttribPointer 1 2 pygl.GL_FLOAT pygl.GL_FALSE
           (5 * floatSize) (3 * floatSize)) ;;
   (* textures *)
   new_texture texture1_obj put_texture1 texUnit1 image1 Nearest ;;
   new_texture texture2_obj put_texture2 texUnit2 image2 Linear ;;
   vbo_release_m vbo put_vbo ;;
   call vaoBinder_del ;;
   call (py_print (PStr "gl initialized")))%method.

(** The body of the drawing loop of [CubeGL.paintGL]. *)
Definition draw_cube (rotvec : QVector3D) (i : Z) (pos : QVector3D)
  : M CubeGL unit :=
  (let cubeModel := QMatrix4x4_new in
   let cubeModel := cubeModel ++ [translate pos] in
   let angle := 30 * i in
   let cubeModel := cubeModel ++ [rotate angle rotvec] in
   call (program_setUniformValue "model" (UMatrix cubeModel)) ;;
   t1 <- bind (gets texture1) on_object ;;
   u1 <- gets texUnit1 ;;
   call (texture_bind t1 u1) ;;
   t2 <- bind (gets texture2) on_object ;;
   u2 <- gets texUnit2 ;;
   call (texture_bind t2 u2) ;;
   n <- gets (fun self => size (cubeVertices self)) ;;
   call (glDrawArrays pygl.GL_TRIANGLES 0 n))%method.

(** [CubeGL.paintGL] *)
Definition paintGL : M CubeGL unit :=
  (call (glClear (Z.lor pygl.GL_COLOR_BUFFER_BIT pygl.GL_DEPTH_BUFFER_BIT)) ;;
   call vao_bind ;;
   vbo_bind_m vbo put_vbo ;;
   call program_bind ;;
   let rotvec := vec3 0.7 0.2 0.5 in
   coords <- gets cubeCoords ;;
   for_enumerate 0 coords (draw_cube rotvec) ;;
   vbo_release_m vbo put_vbo ;;
   call program_release ;;
   t1 <- bind (gets texture1) on_object ;;
   call (texture_release t1) ;;
   t2 <- bind (gets texture2) on_object ;;
   call (texture_release t2))%method.

End Cube.

(* ================================================================== *)
(** * 06-events: the widget [EventsGL] *)

Module EventsGL.

(** The fields of [self] that [paintGL] and [turnAround] read.  The
    constructor of [EventsGL] is in [glevents.py], not in the notebook:
    a widget state is given, not built. *)
Record EventsGL : Type := mkEventsGL {
  camera : Camera;
  cubeCoords : list QVector3D;
  rotateVector : QVector3D;
  vbo : QOpenGLBuffer;
  texture1 : option TexName;
  texture2 : option TexName;
  (* QWidget geometry, read through [self.width()] and [self.height()] *)
  width : Z;
  height : Z;
  (* repaints asked for through [self.update()] and not yet done *)
  pending_updates : nat
}.

Definition put_vbo (b : QOpenGLBuffer) (self : EventsGL) : EventsGL :=
  mkEventsGL (camera self) (cubeCoords self) (rotateVector self) b
             (texture1 self) (texture2 self) (width self) (height self)
             (pending_updates self).

Definition put_camera (c : Camera) (self : EventsGL) : EventsGL :=
  mkEventsGL c (cubeCoords self) (rotateVector self) (vbo self)
             (texture1 self) (texture2 self) (width self) (height self)
             (pending_updates self).

Definition put_rotateVector (v : QVector3D) (self : EventsGL) : EventsGL :=
  mkEventsGL (camera self) (cubeCoords self) v (vbo self)
             (texture1 self) (texture2 self) (width self) (height self)
             (pending_updates self).

(** [QWidget.update()]: asks Qt for a repaint, which comes later. *)
Definition update (self : EventsGL) : EventsGL :=
  mkEventsGL (camera self) (cubeCoords self) (rotateVector self) (vbo self)
             (texture1 self) (texture2 self) (width self) (height self)
             (S (pending_updates self)).

(** [EventsGL.turnAround] *)
Definition turnAround `{CameraOps} (x y : Q) (self : EventsGL) : EventsGL :=
  let self := put_camera (lookAround x y true (camera self)) self in
  update self.

(** Modelled from the spec: [EventsGL.moveCamera] is in [glevents.py],
    not in the notebook.  The callbacks "forward UI values into a camera
    object": the direction goes to the camera's [move], and the widget
    asks for a repaint as [turnAround] does. *)
Definition moveCamera `{CameraOps} (direction : string) (self : EventsGL)
  : EventsGL :=
  let self := put_camera (move direction (camera self)) self in
  update self.

(** Modelled from the spec: [EventsGL.rotateCubes] is in [glevents.py],
    not in the notebook.  The callbacks forward UI values "into
    per-frame uniform updates": the three values become the rotation
    axis [self.rotateVector] that [paintGL] puts into the [model]
    uniform, and the widget asks for a repaint. *)
Definition rotateCubes (xval yval zval : Z) (self : EventsGL) : EventsGL :=
  let self :=
    put_rotateVector (vec3 (py_float xval) (py_float yval) (py_float zval))
                     self in
  update self.

(** The body of the drawing loop of [EventsGL.paintGL]. *)
Definition draw_cube (i : Z) (pos : QVector3D) : M EventsGL unit :=
  (let cubeModel := QMatrix4x4_new in
   let cubeModel := cubeModel ++ [translate pos] in
   let angle := 30 * i in
   axis <- gets rotateVector ;;
   let cubeModel := cubeModel ++ [rotate angle axis] in
   call (program_setUniformValue "model" (UMatrix cubeModel)) ;;
   t1 <- bind (gets texture1) on_object ;;
   call (texture_bind t1 0) ;;
   t2 <- bind (gets texture2) on_object ;;
   call (texture_bind t2 1) ;;
   call (glDrawArrays pygl.GL_TRIANGLES 0 36))%method.

(** [EventsGL.paintGL] *)
Definition paintGL : M EventsGL unit :=
  (call (glClear (Z.lor pygl.GL_COLOR_BUFFER_BIT pygl.GL_DEPTH_BUFFER_BIT)) ;;
   call vao_bind ;;
   vbo_bind_m vbo put_vbo ;;
   call program_bind ;;
   (* projection matrix *)
   fov <- gets (fun self => zoom (camera self)) ;;
   w <- gets width ;;
   h <- gets height ;;
   aspect <- eval (py_truediv w h) ;;
   let projectionMatrix := QMatrix4x4_new in
   let projectionMatrix :=
     projectionMatrix ++ [perspective fov aspect 0.2 100.0] in
   call (program_setUniformValue "projection" (UMatrix projectionMatrix)) ;;
   (* view/camera matrix *)
   cam <- gets camera ;;
   call (program_setUniformValue "view" (UViewMatrixOf cam)) ;;
   coords <- gets cubeCoords ;;
   for_enumerate 0 coords draw_cube ;;
   vbo_release_m vbo put_vbo ;;
   call program_release ;;
   t1 <- bind (gets texture1) on_object ;;
   call (texture_release t1) ;;
   t2 <- bind (gets texture2) on_object ;;
   call (texture_release t2))%method.

End EventsGL.

(* ================================================================== *)
(** * 06-events: the window [EventAppWindow] *)

(** What the window asks of the widget it is given. *)
Class GLWidgetOps (W : Type) : Type := {
  widget_moveCamera : string -> W -> W;
  widget_turnAround : Q -> Q -> W -> W;
  widget_rotateCubes : Z -> Z -> Z -> W -> W
}.

(** The widget of the tutorial. *)
#[export] Instance EventsGL_widget `{CameraOps} : GLWidgetOps EventsGL.EventsGL := {
  widget_moveCamera := EventsGL.moveCamera;
  widget_turnAround := EventsGL.turnAround;
  widget_rotateCubes := EventsGL.rotateCubes
}.

(** A widget that only records the calls it receives, in order. *)
Inductive WidgetCall : Type :=
| called_moveCamera (direction : string)
| called_turnAround (x y : Q)
| called_rotateCubes (rx ry rz : Z).

#[export] Instance recording_widget : GLWidgetOps (list WidgetCall) := {
  widget_moveCamera d log := log ++ [called_moveCamera d];
  widget_turnAround x y log := log ++ [called_turnAround x y];
  widget_rotateCubes rx ry rz log := log ++ [called_rotateCubes rx ry rz]
}.

(** Qt's slider: [setRange] and [setValue] keep the value in the range,
    and [setValue] tells whether the value changed, in which case Qt emits
    [valueChanged]. *)
Record QSlider : Type := mkSlider {
  minimum : Z;
  maximum : Z;
  value : Z
}.

Definition bound (lo hi v : Z) : Z := Z.max lo (Z.min hi v).

Definition setRange (lo hi : Z) (s : QSlider) : QSlider :=
  let hi := Z.max lo hi in
  mkSlider lo hi (bound lo hi (value s)).

Definition setValue (v : Z) (s : QSlider) : QSlider * bool :=
  let v' := bound (minimum s) (maximum s) v in
  (mkSlider (minimum s) (maximum s) v', negb (v' =? value s)).

Inductive SliderName : Type := CamX | CamY | XSlider | YSlider | ZSlider.
Inductive ButtonName : Type := UpBtn | DownBtn | LeftBtn | RightBtn.

Inductive Signal : Type :=
| clicked (b : ButtonName)
| valueChanged (s : SliderName).

Inductive Slot : Type :=
| slot_moveCameraForward
| slot_moveCameraBackward
| slot_moveCameraLeft
| slot_moveCameraRight
| slot_turnCameraX
| slot_turnCameraY
| slot_rotateCubes.

Definition Signal_eqb (a b : Signal) : bool :=
  match a, b with
  | clicked UpBtn, clicked UpBtn
  | clicked DownBtn, clicked DownBtn
  | clicked LeftBtn, clicked LeftBtn
  | clicked RightBtn, clicked RightBtn
  | valueChanged CamX, valueChanged CamX
  | valueChanged CamY, valueChanged CamY
  | valueChanged XSlider, valueChanged XSlider
  | valueChanged YSlider, valueChanged YSlider
  | valueChanged ZSlider, valueChanged ZSlider => true
  | _, _ => false
  end.

Module EventApp.
Section Window.
Context {W : Type} `{GLWidgetOps W}.

Record EventAppWindow : Type := mkWindow {
  camX : QSlider;
  camY : QSlider;
  xSlider : QSlider;
  ySlider : QSlider;
  zSlider : QSlider;
  glWidget : W;
  lastCamXVal : Z;
  lastCamYVal : Z
}.

Definition put_glWidget (g : W) (self : EventAppWindow) : EventAppWindow :=
  mkWindow (camX self) (camY self) (xSlider self) (ySlider self)
           (zSlider self) g (lastCamXVal self) (lastCamYVal self).

Definition put_lastCamXVal (v : Z) (self : EventAppWindow) : EventAppWindow :=
  mkWindow (camX self) (camY self) (xSlider self) (ySlider self)
           (zSlider self) (glWidget self) v (lastCamYVal self).

Definition put_lastCamYVal (v : Z) (self : EventAppWindow) : EventAppWindow :=
  mkWindow (camX self) (camY self) (xSlider self) (ySlider self)
           (zSlider self) (glWidget self) (lastCamXVal self) v.

Definition slider (s : SliderName) (self : EventAppWindow) : QSlider :=
  match s with
  | CamX => camX self
  | CamY => camY self
  | XSlider => xSlider self
  | YSlider => ySlider self
  | ZSlider => zSlider self
  end.

Definition put_slider (s : SliderName) (q : QSlider) (self : EventAppWindow)
  : EventAppWindow :=
  match s with
  | CamX => mkWindow q (camY self) (xSlider self) (ySlider self)
              (zSlider self) (glWidget self) (lastCamXVal self)
              (lastCamYVal self)
  | CamY => mkWindow (camX self) q (xSlider self) (ySlider self)
              (zSlider self) (glWidget self) (lastCamXVal self)
              (lastCamYVal self)
  | XSlider => mkWindow (camX self) (camY self) q (ySlider self)
              (zSlider self) (glWidget self) (lastCamXVal self)
              (lastCamYVal self)
  | YSlider => mkWindow (camX self) (camY self) (xSlider self) q
              (zSlider self) (glWidget self) (lastCamXVal self)
              (lastCamYVal self)
  | ZSlider => mkWindow (camX self) (camY self) (xSlider self)
              (ySlider self) q (glWidget self) (lastCamXVal self)
              (lastCamYVal self)
  end.

(** The [connect] calls of [EventAppWindow.__init__], in order. *)
Definition connections : list (Signal * Slot) :=
  [ (clicked UpBtn, slot_moveCameraForward);
    (clicked DownBtn, slot_moveCameraBackward);
    (clicked LeftBtn, slot_moveCameraLeft);
    (clicked RightBtn, slot_moveCameraRight);
    (valueChanged CamX, slot_turnCameraX);
    (valueChanged CamY, slot_turnCameraY);
    (valueChanged XSlider, slot_rotateCubes);
    (valueChanged YSlider, slot_rotateCubes);
    (valueChanged ZSlider, slot_rotateCubes) ].

(** [EventAppWindow.__init__].  The base class [GLWindow] (in
    [tutorials/utils/window.py]) builds the five sliders and the four
    buttons and keeps the widget: the sliders as it leaves them are
    arguments. *)
Definition init (camX0 camY0 xSlider0 ySlider0 zSlider0 : QSlider)
    (glwidget : W) : EventAppWindow :=
  let camX := setRange (-180) 180 camX0 in
  let camY := setRange (-180) 180 camY0 in
  let xSlider := setRange (-180) 180 xSlider0 in
  let ySlider := setRange (-180) 180 ySlider0 in
  let zSlider := setRange (-180) 180 zSlider0 in
  {| camX := camX;
     camY := camY;
     xSlider := xSlider;
     ySlider := ySlider;
     zSlider := zSlider;
     glWidget := glwidget;
     lastCamXVal := value camX;
     lastCamYVal := value camY |}.

Definition moveGLCamera (direction : string) (self : EventAppWindow)
  : EventAppWindow :=
  put_glWidget (widget_moveCamera direction (glWidget self)) self.

Definition moveCameraForward := moveGLCamera "forward".
Definition moveCameraBackward := moveGLCamera "backward".
Definition moveCameraLeft := moveGLCamera "left".
Definition moveCameraRight := moveGLCamera "right".

Definition turnCameraX (newVal : Z) (self : EventAppWindow) : EventAppWindow :=
  let offsetx := newVal - lastCamXVal self in
  let valy := value (camY self) - lastCamYVal self in
  let self :=
    put_glWidget
      (widget_turnAround (py_float offsetx) (py_float valy) (glWidget self))
      self in
  put_lastCamXVal newVal self.

Definition turnCameraY (newVal : Z) (self : EventAppWindow) : EventAppWindow :=
  let offsety := newVal - lastCamYVal self in
  let valx := value (camX self) - lastCamXVal self in
  let self :=
    put_glWidget
      (widget_turnAround (py_float valx) (py_float offsety) (glWidget self))
      self in
  put_lastCamYVal newVal self.

Definition rotateCubes (self : EventAppWindow) : EventAppWindow :=
  let rx := value (xSlider self) in
  let ry := value (ySlider self) in
  let rz := value (zSlider self) in
  put_glWidget (widget_rotateCubes rx ry rz (glWidget self)) self.

(** Calling a slot with the argument of the signal; a slot that takes no
    argument drops it. *)
Definition run_slot (sl : Slot) (arg : Z) : EventAppWindow -> EventAppWindow :=
  match sl with
  | slot_moveCameraForward => moveCameraForward
  | slot_moveCameraBackward => moveCameraBackward
  | slot_moveCameraLeft => moveCameraLeft
  | slot_moveCameraRight => moveCameraRight
  | slot_turnCameraX => turnCameraX arg
  | slot_turnCameraY => turnCameraY arg
  | slot_rotateCubes => rotateCubes
  end.

(** Emitting a signal: every slot connected to it runs, in the order of
    the connections. *)
Definition emit (sig : Signal) (arg : Z) (self : EventAppWindow)
  : EventAppWindow :=
  fold_left
    (fun self c => if Signal_eqb (fst c) sig then run_slot (snd c) arg self
                   else self)
    connections self.

(** What the user does to the window. *)
Inductive UIEvent : Type :=
| click (b : ButtonName)
| slide (s : SliderName) (v : Z).

Definition handle (e : UIEvent) (self : EventAppWindow) : EventAppWindow :=
  match e with
  | click b => emit (clicked b) 0 self
  | slide s v =>
      let (q, changed) := setValue v (slider s self) in
      let self := put_slider s q self in
      if changed then emit (valueChanged s) (value q) self else self
  end.

Definition run (es : list UIEvent) (self : EventAppWindow) : EventAppWindow :=
  fold_left (fun self e => handle e self) es self.

End Window.
Arguments EventAppWindow W : clear implicits.
End EventApp.

(* ================================================================== *)
(** * Vocabulary of the statements *)

(** A method leaves the part [f] of the widget as it found it, however
    it ends. *)
Definition preserves {S A B} (f : S -> B) (m : M S A) : Prop :=
  forall s, f (state_after m s) = f s.

(** Every call a method makes satisfies [P], however it ends. *)
Definition emits_only {S A} (P : Call -> bool) (m : M S A) : Prop :=
  forall s, forallb P (calls_of m s) = true.

(** A call that writes into the vertex buffer. *)
Definition writes_vbo (c : Call) : bool :=
  match c with
  | vbo_allocate _ _ => true
  | _ => false
  end.

Definition sets_uniform (name : string) (c : Call) : bool :=
  match c with
  | program_setUniformValue n _ => String.eqb n name
  | _ => false
  end.

(** The calls of a loop whose body, at index [i] on element [x], makes the
    calls [tr i x]. *)
Fixpoint loop_calls {A} (tr : Z -> A -> list Call) (i : Z) (l : list A)
  : list Call :=
  match l with
  | [] => []
  | x :: l' => tr i x ++ loop_calls tr (i + 1) l'
  end.

(** The calls of one turn of the drawing loop, once the textures exist. *)
Definition body_calls (t1 t2 : TexName) (u1 u2 count : Z) (axis : QVector3D)
    (i : Z) (pos : QVector3D) : list Call :=
  [ program_setUniformValue "model"
      (UMatrix [translate pos; rotate (30 * i) axis]);
    texture_bind t1 u1;
    texture_bind t2 u2;
    glDrawArrays pygl.GL_TRIANGLES 0 count ].

(** What a frame is to draw: per cube, counting from [i], the model matrix
    "translation by the cube's position, then rotation by 30 * i degrees
    about [axis]" and one draw call of [count] vertices. *)
Fixpoint expected_draws (axis : QVector3D) (count : Z) (i : Z)
    (coords : list QVector3D) : list (option UniformValue * (Z * Z * Z)) :=
  match coords with
  | [] => []
  | pos :: coords' =>
      (Some (UMatrix [translate pos; rotate (30 * i) axis]),
       (pygl.GL_TRIANGLES, 0, count))
      :: expected_draws axis count (i + 1) coords'
  end.

(** The successive differences [v1 - v0; v2 - v1; ...]. *)
Fixpoint offsets (v0 : Z) (vs : list Z) : list Z :=
  match vs with
  | [] => []
  | v :: vs' => (v - v0) :: offsets v vs'
  end.

Definition total (l : list Z) : Z := fold_right Z.add 0 l.
Definition totalQ (l : list Q) : Q := fold_right Qplus 0%Q l.

(** The range the constructor gives the sliders. *)
Definition in_slider_range (v : Z) : bool := (-180 <=? v) && (v <=? 180).
Definition in_slider_rangeQ (x : Q) : bool :=
  Qle_bool (inject_Z (-180)) x && Qle_bool x (inject_Z 180).
Definition in_offset_rangeQ (x : Q) : bool :=
  Qle_bool (inject_Z (-360)) x && Qle_bool x (inject_Z 360).

(** Every angle forwarded by the call lies in the slider range. *)
Definition forwards_in_slider_range (c : WidgetCall) : bool :=
  match c with
  | called_moveCamera _ => true
  | called_turnAround x y => in_slider_rangeQ x && in_slider_rangeQ y
  | called_rotateCubes rx ry rz =>
      in_slider_range rx && in_slider_range ry && in_slider_range rz
  end.

(** The same, with the offsets of [turnAround] allowed twice the span. *)
Definition forwards_in_range (c : WidgetCall) : bool :=
  match c with
  | called_moveCamera _ => true
  | called_turnAround x y => in_offset_rangeQ x && in_offset_rangeQ y
  | called_rotateCubes rx ry rz =>
      in_slider_range rx && in_slider_range ry && in_slider_range rz
  end.

(** A slider as the constructor leaves it and as Qt keeps it. *)
Definition slider_ok (q : QSlider) : Prop :=
  minimum q = -180 /\ maximum q = 180 /\ -180 <= value q <= 180.

(** What holds of the window between two UI events, the widget being the
    one that records its calls. *)
Definition window_ok (w : EventApp.EventAppWindow (list WidgetCall)) : Prop :=
  (forall s, slider_ok (EventApp.slider s w))
  /\ -180 <= EventApp.lastCamXVal w <= 180
  /\ -180 <= EventApp.lastCamYVal w <= 180
  /\ forallb forwards_in_range (EventApp.glWidget w) = true.

(** The rectangle corners [0 .. n-1]. *)
Definition corners (n : Z) : list Z := map Z.of_nat (seq 0 (Z.to_nat n)).

(** A method is blind to what [erase] wipes out of the widget: from two
    widgets that differ there only, it makes the same calls, ends the same
    way and leaves widgets that still differ there only. *)
Definition blind_to {S A} (erase : S -> S) (m : M S A) : Prop :=
  forall s s',
    erase s = erase s' ->
    calls_of m s = calls_of m s'
    /\ outcome_of m s = outcome_of m s'
    /\ erase (state_after m s) = erase (state_after m s').

Definition Cube_without_vbo (self : Cube.CubeGL) : Cube.CubeGL :=
  Cube.put_vbo QOpenGLBuffer_new self.

Definition EventsGL_without_vbo (self : EventsGL.EventsGL) : EventsGL.EventsGL :=
  EventsGL.put_vbo QOpenGLBuffer_new self.

Definition Cube_put_camera (c : Camera) (self : Cube.CubeGL) : Cube.CubeGL :=
  Cube.mkCubeGL c (Cube.image1 self) (Cube.image2 self) (Cube.vbo self)
    (Cube.texture1 self) (Cube.texture2 self) (Cube.texUnit1 self)
    (Cube.texUnit2 self) (Cube.cubeVertices self) (Cube.cubeCoords self)
    (Cube.width self) (Cube.height self).

(** What is bound while a sequence of calls runs. *)
Record Bound : Type := mkBound {
  program_is_bound : bool;
  vbo_is_bound : bool;
  vao_is_bound : bool
}.

(** One call, made with [b] bound: what is bound after it, or [None] when
    the call comes out of order: a uniform set or a draw call with no
    program bound, a draw call or an attribute pointer with no vertex
    array bound, an allocation or an attribute pointer with no buffer
    bound. *)
Definition step_bound (b : Bound) (c : Call) : option Bound :=
  match c with
  | program_new => Some (mkBound false (vbo_is_bound b) (vao_is_bound b))
  | program_bind => Some (mkBound true (vbo_is_bound b) (vao_is_bound b))
  | program_release => Some (mkBound false (vbo_is_bound b) (vao_is_bound b))
  | vbo_bind => Some (mkBound (program_is_bound b) true (vao_is_bound b))
  | vbo_release => Some (mkBound (program_is_bound b) false (vao_is_bound b))
  | vao_bind | vaoBinder_new =>
      Some (mkBound (program_is_bound b) (vbo_is_bound b) true)
  | vaoBinder_del =>
      Some (mkBound (program_is_bound b) (vbo_is_bound b) false)
  | program_setUniformValue _ _ =>
      if program_is_bound b then Some b else None
  | glDrawArrays _ _ _ | glDrawElements _ _ _ _ =>
      if program_is_bound b && vao_is_bound b then Some b else None
  | vbo_allocate _ _ => if vbo_is_bound b then Some b else None
  | glVertexAttribPointer _ _ _ _ _ _ =>
      if vbo_is_bound b && vao_is_bound b then Some b else None
  | _ => Some b
  end.

Fixpoint in_order (b : Bound) (t : list Call) : option Bound :=
  match t with
  | [] => Some b
  | c :: t' =>
      match step_bound b c with
      | Some b' => in_order b' t'
      | None => None
      end
  end.

(** The attribute pointers set: index, floats per vertex, stride and
    offset in bytes. *)
Definition attrib_pointer_of (c : Call) : option (Z * Z * Z * Z) :=
  match c with
  | glVertexAttribPointer index n _ _ stride offset =>
      Some (index, n, stride, offset)
  | _ => None
  end.

Definition attrib_pointers (t : list Call) : list (Z * Z * Z * Z) :=
  filter_map attrib_pointer_of t.

Definition TexName_eqb (a b : TexName) : bool :=
  match a, b with
  | texture1_obj, texture1_obj | texture2_obj, texture2_obj => true
  | _, _ => false
  end.

(** The units the texture [t] is bound to, in order. *)
Definition texture_binds (t : TexName) (calls : list Call) : list Z :=
  filter_map
    (fun c =>
       match c with
       | texture_bind t' u => if TexName_eqb t' t then Some u else None
       | _ => None
       end)
    calls.

(** The offsets the widget received through [turnAround], in order. *)
Definition turn_xs (log : list WidgetCall) : list Q :=
  filter_map
    (fun c => match c with called_turnAround x _ => Some x | _ => None end)
    log.

Definition turn_ys (log : list WidgetCall) : list Q :=
  filter_map
    (fun c => match c with called_turnAround _ y => Some y | _ => None end)
    log.

(** A [turnAround] call that turns about one axis only. *)
Definition turns_one_axis (c : WidgetCall) : bool :=
  match c with
  | called_turnAround x y => Qeq_bool x 0 || Qeq_bool y 0
  | _ => true
  end.

(** What the window keeps between two UI events, [x0] and [y0] being the
    values of [camX] and [camY] when the constructor returned: the last
    values are those the sliders hold, every turn is about one axis, and
    the offsets forwarded so far add up to the way the sliders went. *)
Definition window_tracks (x0 y0 : Z)
    (w : EventApp.EventAppWindow (list WidgetCall)) : Prop :=
  EventApp.lastCamXVal w = value (EventApp.camX w)
  /\ EventApp.lastCamYVal w = value (EventApp.camY w)
  /\ forallb turns_one_axis (EventApp.glWidget w) = true
  /\ (totalQ (turn_xs (EventApp.glWidget w))
      == py_float (EventApp.lastCamXVal w - x0))%Q
  /\ (totalQ (turn_ys (EventApp.glWidget w))
      == py_float (EventApp.lastCamYVal w - y0))%Q.

(** Inputs on which the statements are evaluated. *)
Module Example.

(** A fresh camera, standing for the result of [QtCamera()]. *)
Definition a_camera : Camera :=
  mkCamera (vec3 0 0 0) (vec3 0 0 (-1)) (vec3 0 1 0) (vec3 1 0 0)
           (-90.0) 0.0 45.0.

(** The cube widget, constructed at 640 x 480 and initialised. *)
Definition cube_built : Cube.CubeGL := Cube.init a_camera 640 480.
Definition cube_ready : Cube.CubeGL :=
  state_after Cube.initializeGL cube_built.

(** An events widget on the same cubes, ready to paint. *)
Definition events_ready : EventsGL.EventsGL :=
  {| EventsGL.camera := Cube.camera cube_ready;
     EventsGL.cubeCoords := Cube.cubeCoords cube_ready;
     EventsGL.rotateVector := vec3 0.7 0.2 0.5;
     EventsGL.vbo := Cube.vbo cube_ready;
     EventsGL.texture1 := Some texture1_obj;
     EventsGL.texture2 := Some texture2_obj;
     EventsGL.width := 640;
     EventsGL.height := 480;
     EventsGL.pending_updates := 0 |}.

(** The same two widgets with no height. *)
Definition cube_flat : Cube.CubeGL := Cube.init a_camera 640 0.
Definition events_flat : EventsGL.EventsGL :=
  {| EventsGL.camera := Cube.camera cube_ready;
     EventsGL.cubeCoords := Cube.cubeCoords cube_ready;
     EventsGL.rotateVector := vec3 0.7 0.2 0.5;
     EventsGL.vbo := Cube.vbo cube_ready;
     EventsGL.texture1 := Some texture1_obj;
     EventsGL.texture2 := Some texture2_obj;
     EventsGL.width := 640;
     EventsGL.height := 0;
     EventsGL.pending_updates := 0 |}.

(** A slider as Qt builds it: range 0 .. 99, value 0. *)
Definition a_slider : QSlider := mkSlider 0 99 0.

(** The window around a widget that records its calls. *)
Definition window : EventApp.EventAppWindow (list WidgetCall) :=
  EventApp.init a_slider a_slider a_slider a_slider a_slider [].

(** The window around the events widget. *)
Definition events_window : EventApp.EventAppWindow EventsGL.EventsGL :=
  EventApp.init a_slider a_slider a_slider a_slider a_slider events_ready.

End Example.

(* ================================================================== *)
(** * Facts about methods *)

Section MethodFacts.
Context {S : Type}.

Lemma run_bind {A B} (m : M S A) (f : A -> M S B) (s : S) :
  bind m f s =
  match outcome_of m s with
  | Returned a =>
      (state_after (f a) (state_after m s),
       calls_of m s ++ calls_of (f a) (state_after m s),
       outcome_of (f a) (state_after m s))
  | Raised e => (state_after m s, calls_of m s, Raised e)
  end.
Proof.
  unfold bind, outcome_of, state_after, calls_of.
  destruct (m s) as [[s1 t1] [a|e]]; simpl; [|reflexivity].
  destruct (f a s1) as [[s2 t2] o]; reflexivity.
Qed.

Lemma preserves_bind {A B C} (g : S -> C) (m : M S A) (f : A -> M S B) :
  preserves g m -> (forall a, preserves g (f a)) -> preserves g (bind m f).
Proof.
  intros Hm Hf s. unfold state_after at 1. rewrite run_bind.
  destruct (outcome_of m s) as [a|e]; simpl.
  - rewrite (Hf a). apply Hm.
  - apply Hm.
Qed.

Lemma preserves_ret {A C} (g : S -> C) (a : A) : preserves g (ret a).
Proof. intros s; reflexivity. Qed.

Lemma preserves_gets {A C} (g : S -> C) (f : S -> A) : preserves g (gets f).
Proof. intros s; reflexivity. Qed.

Lemma preserves_call {C} (g : S -> C) (c : Call) : preserves g (call c).
Proof. intros s; reflexivity. Qed.

Lemma preserves_raise {A C} (g : S -> C) (e : PyExn) :
  preserves g (@raise S A e).
Proof. intros s; reflexivity. Qed.

Lemma preserves_eval {A C} (g : S -> C) (r : PyExn + A) :
  preserves g (eval r).
Proof. destruct r; intros s; reflexivity. Qed.

Lemma preserves_on_object {A C} (g : S -> C) (o : option A) :
  preserves g (on_object o).
Proof. destruct o; intros s; reflexivity. Qed.

Lemma preserves_modify {C} (g : S -> C) (f : S -> S) :
  (forall s, g (f s) = g s) -> preserves g (modify f).
Proof. intros Hf s; apply Hf. Qed.

Lemma preserves_for_enumerate {A C} (g : S -> C) (body : Z -> A -> M S unit)
      (l : list A) :
  (forall i x, preserves g (body i x)) ->
  forall i, preserves g (for_enumerate i l body).
Proof.
  intros Hb. induction l as [|x l IH]; intros i; simpl.
  - apply preserves_ret.
  - apply preserves_bind; [apply Hb | intros _; apply IH].
Qed.

Lemma emits_only_bind {A B} (P : Call -> bool) (m : M S A) (f : A -> M S B) :
  emits_only P m -> (forall a, emits_only P (f a)) -> emits_only P (bind m f).
Proof.
  intros Hm Hf s. unfold calls_of at 1. rewrite run_bind.
  destruct (outcome_of m s) as [a|e]; simpl.
  - rewrite forallb_app, Hm, Hf. reflexivity.
  - apply Hm.
Qed.

Lemma emits_only_ret {A} (P : Call -> bool) (a : A) : emits_only P (@ret S A a).
Proof. intros s; reflexivity. Qed.

Lemma emits_only_gets {A} (P : Call -> bool) (f : S -> A) :
  emits_only P (gets f).
Proof. intros s; reflexivity. Qed.

Lemma emits_only_modify (P : Call -> bool) (f : S -> S) :
  emits_only P (modify f).
Proof. intros s; reflexivity. Qed.

Lemma emits_only_raise {A} (P : Call -> bool) (e : PyExn) :
  emits_only P (@raise S A e).
Proof. intros s; reflexivity. Qed.

Lemma emits_only_eval {A} (P : Call -> bool) (r : PyExn + A) :
  emits_only P (@eval S A r).
Proof. destruct r; intros s; reflexivity. Qed.

Lemma emits_only_on_object {A} (P : Call -> bool) (o : option A) :
  emits_only P (@on_object S A o).
Proof. destruct o; intros s; reflexivity. Qed.

Lemma emits_only_call (P : Call -> bool) (c : Call) :
  P c = true -> emits_only P (@call S c).
Proof. intros Hc s; simpl. rewrite Hc; reflexivity. Qed.

Lemma emits_only_for_enumerate {A} (P : Call -> bool)
      (body : Z -> A -> M S unit) (l : list A) :
  (forall i x, emits_only P (body i x)) ->
  forall i, emits_only P (for_enumerate i l body).
Proof.
  intros Hb. induction l as [|x l IH]; intros i; simpl.
  - apply emits_only_ret.
  - apply emits_only_bind; [apply Hb | intros _; apply IH].
Qed.

(** A loop whose body returns and leaves the widget as it is. *)
Lemma for_enumerate_returns {A} (body : Z -> A -> M S unit)
      (tr : Z -> A -> list Call) (s : S) (l : list A) :
  (forall i x, body i x s = (s, tr i x, Returned tt)) ->
  forall i, for_enumerate i l body s = (s, loop_calls tr i l, Returned tt).
Proof.
  intros Hb. induction l as [|x l IH]; intros i; simpl; [reflexivity|].
  unfold bind. rewrite Hb, IH. reflexivity.
Qed.
End MethodFacts.

Lemma filter_map_app {A B} (f : A -> option B) (l1 l2 : list A) :
  filter_map f (l1 ++ l2) = filter_map f l1 ++ filter_map f l2.
Proof.
  induction l1 as [|a l1 IH]; simpl; [reflexivity|].
  destruct (f a); simpl; rewrite IH; reflexivity.
Qed.

(** Calls that do not set the uniform [name] give it no value. *)
Lemma uniforms_set_none (name : string) (t : list Call) :
  forallb (fun c => negb (sets_uniform name c)) t = true ->
  uniforms_set name t = [].
Proof.
  unfold uniforms_set.
  induction t as [|c t IH]; simpl; [reflexivity|].
  intros H. apply andb_prop in H. destruct H as [Hc Ht].
  destruct c; simpl in *; auto.
  destruct (String.eqb name0 name); [discriminate | auto].
Qed.

Create HintDb frame.
#[local] Hint Resolve preserves_ret preserves_gets preserves_call
  preserves_raise preserves_eval preserves_on_object : frame.
#[local] Hint Resolve emits_only_ret emits_only_gets emits_only_modify
  emits_only_raise emits_only_eval emits_only_on_object : frame.

(** Goes through a method, statement by statement. *)
Ltac frame_step :=
  first
    [ apply preserves_bind; [|intros ?]
    | apply emits_only_bind; [|intros ?]
    | apply preserves_for_enumerate; intros ? ?
    | apply emits_only_for_enumerate; intros ? ?
    | apply preserves_modify; intros []; reflexivity
    | apply emits_only_call; reflexivity
    | solve [auto with frame] ].

Ltac frame := repeat frame_step.

(* ================================================================== *)
(** * 02-rectangle *)

(** [paintGL] makes one [glDrawElements] call: triangles, as many
    elements as [indices] has, unsigned, on the index array itself. *)
Lemma Rectangle_paintGL_draws (self : Rectangle.RectangleGL) :
  filter_map Rectangle.draw_elements_of (calls_of Rectangle.paintGL self) =
  [(pygl.GL_TRIANGLES, size (Rectangle.indices self), pygl.GL_UNSIGNED_INT,
    Rectangle.indices self)].
Proof. reflexivity. Qed.

(** C9: every element of [indices] is a valid index into the four corners
    of [vertexData]; the count given to [glDrawElements] is
    [indices.size], which is 6; and the triples (0,1,3) and (1,2,3) reach
    all four corners. *)
Theorem Rectangle_indices_valid :
  let self := Rectangle.init in
  Rectangle.vertex_count self = 4
  /\ Forall (fun i => 0 <= i < Rectangle.vertex_count self)
            (Rectangle.indices self)
  /\ filter_map Rectangle.draw_elements_of (calls_of Rectangle.paintGL self)
     = [(pygl.GL_TRIANGLES, 6, pygl.GL_UNSIGNED_INT, Rectangle.indices self)]
  /\ size (Rectangle.indices self) = 6
  /\ Rectangle.triples (Rectangle.indices self) = [(0, 1, 3); (1, 2, 3)]
  /\ Forall (fun v => In v (Rectangle.indices self))
            (corners (Rectangle.vertex_count self)).
Proof.
  cbv zeta.
  assert (Hn : Rectangle.vertex_count Rectangle.init = 4) by reflexivity.
  rewrite Hn. split; [reflexivity|]. split.
  - simpl. repeat (constructor; [lia|]). constructor.
  - split; [reflexivity|]. split; [reflexivity|]. split; [reflexivity|].
    simpl. repeat (constructor; [simpl; auto 10|]). constructor.
Qed.

#[local] Arguments Z.mul : simpl never.
#[local] Arguments Z.add : simpl never.

(* ================================================================== *)
(** * The drawing loop *)

Lemma draws_with_model_loop (t1 t2 : TexName) (u1 u2 n : Z) (axis : QVector3D)
      (tl : list Call) :
  (forall c, draws_with_model c tl = []) ->
  forall coords i cur,
    draws_with_model cur
      (loop_calls (body_calls t1 t2 u1 u2 n axis) i coords ++ tl)
    = expected_draws axis n i coords.
Proof.
  intros Htl. induction coords as [|pos coords IH]; intros i cur; simpl.
  - apply Htl.
  - rewrite IH. reflexivity.
Qed.

Lemma draw_arrays_loop (t1 t2 : TexName) (u1 u2 n : Z) (axis : QVector3D)
      (coords : list QVector3D) :
  forall i,
    draw_arrays (loop_calls (body_calls t1 t2 u1 u2 n axis) i coords)
    = repeat (pygl.GL_TRIANGLES, 0, n) (List.length coords).
Proof.
  unfold draw_arrays.
  induction coords as [|pos coords IH]; intros i; simpl; [reflexivity|].
  f_equal. apply IH.
Qed.

Lemma uniforms_set_loop (t1 t2 : TexName) (u1 u2 n : Z) (axis : QVector3D)
      (coords : list QVector3D) :
  forall i,
    List.length
      (uniforms_set "model" (loop_calls (body_calls t1 t2 u1 u2 n axis) i coords))
    = List.length coords.
Proof.
  unfold uniforms_set.
  induction coords as [|pos coords IH]; intros i; simpl; [reflexivity|].
  f_equal. apply IH.
Qed.

(** The [k]-th draw of a frame uses the [k]-th position and the angle
    [30 * (i + k)]. *)
Lemma expected_draws_nth (axis : QVector3D) (n : Z) (coords : list QVector3D) :
  forall (k : nat) (i : Z),
    nth_error (expected_draws axis n i coords) k =
    option_map
      (fun pos =>
         (Some (UMatrix [translate pos; rotate (30 * (i + Z.of_nat k)) axis]),
          (pygl.GL_TRIANGLES, 0, n)))
      (nth_error coords k).
Proof.
  induction coords as [|pos coords IH]; intros k i.
  - destruct k; reflexivity.
  - destruct k as [|k].
    + simpl. rewrite Z.add_0_r. reflexivity.
    + change (nth_error (expected_draws axis n i (pos :: coords)) (S k))
        with (nth_error (expected_draws axis n (i + 1) coords) k).
      change (nth_error (pos :: coords) (S k)) with (nth_error coords k).
      rewrite IH. replace (i + 1 + Z.of_nat k) with (i + Z.of_nat (S k)) by lia.
      reflexivity.
Qed.

(* ================================================================== *)
(** * 05-cube *)

Lemma Cube_draw_cube_returns (self : Cube.CubeGL) (t1 t2 : TexName)
      (axis : QVector3D) (i : Z) (pos : QVector3D) :
  Cube.texture1 self = Some t1 -> Cube.texture2 self = Some t2 ->
  Cube.draw_cube axis i pos self =
  (self,
   body_calls t1 t2 (Cube.texUnit1 self) (Cube.texUnit2 self)
              (size (Cube.cubeVertices self)) axis i pos,
   Returned tt).
Proof.
  intros H1 H2. unfold Cube.draw_cube, bind, gets, call, on_object. simpl.
  rewrite H1. simpl. rewrite H2. reflexivity.
Qed.

(** A frame of the cube widget, once [initializeGL] has made the
    textures. *)
Lemma Cube_paintGL_run (self : Cube.CubeGL) (t1 t2 : TexName) :
  Cube.texture1 self = Some t1 -> Cube.texture2 self = Some t2 ->
  Cube.paintGL self =
  (Cube.put_vbo (mkBuffer (buf_created (Cube.vbo self)) false
                          (buf_data (Cube.vbo self)) (buf_bytes (Cube.vbo self)))
                self,
   [glClear (Z.lor pygl.GL_COLOR_BUFFER_BIT pygl.GL_DEPTH_BUFFER_BIT);
    vao_bind; vbo_bind; program_bind]
   ++ loop_calls (body_calls t1 t2 (Cube.texUnit1 self) (Cube.texUnit2 self)
                             (size (Cube.cubeVertices self)) (vec3 0.7 0.2 0.5))
                 0 (Cube.cubeCoords self)
   ++ [vbo_release; program_release; texture_release t1; texture_release t2],
   Returned tt).
Proof.
  intros H1 H2. unfold Cube.paintGL, bind. simpl.
  erewrite for_enumerate_returns
    by (intros; apply Cube_draw_cube_returns; simpl; eassumption).
  simpl. rewrite H1. simpl. rewrite H2. simpl.
  destruct self; reflexivity.
Qed.

Lemma Cube_paintGL_preserves {B} (f : Cube.CubeGL -> B) :
  (forall b self, f (Cube.put_vbo b self) = f self) ->
  preserves f Cube.paintGL.
Proof.
  intros Hf. unfold Cube.paintGL, Cube.draw_cube, vbo_bind_m, vbo_release_m, on_vbo.
  repeat first [ apply preserves_modify; intros ?; apply Hf | frame_step ].
Qed.

Lemma Cube_paintGL_keeps_vbo_data :
  preserves (fun self => (buf_data (Cube.vbo self), buf_bytes (Cube.vbo self)))
            Cube.paintGL.
Proof.
  unfold Cube.paintGL, Cube.draw_cube, vbo_bind_m, vbo_release_m, on_vbo.
  frame.
Qed.

Lemma Cube_paintGL_no_vbo_write :
  emits_only (fun c => negb (writes_vbo c)) Cube.paintGL.
Proof.
  unfold Cube.paintGL, Cube.draw_cube, vbo_bind_m, vbo_release_m, on_vbo.
  frame.
Qed.

(** [initializeGL] ends on [ZeroDivisionError] when the height is zero,
    and returns otherwise. *)
Lemma Cube_initializeGL_outcome (self : Cube.CubeGL) :
  outcome_of Cube.initializeGL self =
  if Cube.height self =? 0 then Raised ZeroDivisionError else Returned tt.
Proof.
  unfold outcome_of, Cube.initializeGL, bind, eval, py_truediv. simpl.
  destruct (Cube.height self =? 0); reflexivity.
Qed.

Lemma Cube_initializeGL_projection (self : Cube.CubeGL) :
  uniforms_set "projection" (calls_of Cube.initializeGL self) =
  match py_truediv (Cube.width self) (Cube.height self) with
  | inr aspect =>
      [UMatrix [perspective (zoom (Cube.camera self)) aspect 0.2 100.0]]
  | inl _ => []
  end.
Proof.
  unfold calls_of, Cube.initializeGL, bind, eval, py_truediv. simpl.
  destruct (Cube.height self =? 0); reflexivity.
Qed.

(** What [initializeGL] leaves in the vertex buffer. *)
Lemma Cube_initializeGL_vbo (self : Cube.CubeGL) :
  Cube.height self <> 0 ->
  let self' := state_after Cube.initializeGL self in
  buf_data (Cube.vbo self') = Cube.cubeVertices self
  /\ buf_bytes (Cube.vbo self') = 4 * size (Cube.cubeVertices self)
  /\ Cube.texture1 self' = Some texture1_obj
  /\ Cube.texture2 self' = Some texture2_obj
  /\ Cube.cubeVertices self' = Cube.cubeVertices self
  /\ Cube.cubeCoords self' = Cube.cubeCoords self.
Proof.
  intros Hh. apply Z.eqb_neq in Hh.
  unfold state_after, Cube.initializeGL, bind, eval, py_truediv. simpl.
  rewrite Hh. simpl. repeat split; reflexivity.
Qed.

(* ================================================================== *)
(** * 06-events: the widget *)

Lemma EventsGL_draw_cube_returns (self : EventsGL.EventsGL) (t1 t2 : TexName)
      (i : Z) (pos : QVector3D) :
  EventsGL.texture1 self = Some t1 -> EventsGL.texture2 self = Some t2 ->
  EventsGL.draw_cube i pos self =
  (self, body_calls t1 t2 0 1 36 (EventsGL.rotateVector self) i pos,
   Returned tt).
Proof.
  intros H1 H2. unfold EventsGL.draw_cube, bind, gets, call, on_object. simpl.
  rewrite H1. simpl. rewrite H2. reflexivity.
Qed.

(** A frame of the events widget, with its textures and a height. *)
Lemma EventsGL_paintGL_run (self : EventsGL.EventsGL) (t1 t2 : TexName) :
  EventsGL.texture1 self = Some t1 -> EventsGL.texture2 self = Some t2 ->
  EventsGL.height self <> 0 ->
  EventsGL.paintGL self =
  (EventsGL.put_vbo
     (mkBuffer (buf_created (EventsGL.vbo self)) false
               (buf_data (EventsGL.vbo self)) (buf_bytes (EventsGL.vbo self)))
     self,
   [glClear (Z.lor pygl.GL_COLOR_BUFFER_BIT pygl.GL_DEPTH_BUFFER_BIT);
    vao_bind; vbo_bind; program_bind;
    program_setUniformValue "projection"
      (UMatrix [perspective (zoom (EventsGL.camera self))
                  (inject_Z (EventsGL.width self)
                   / inject_Z (EventsGL.height self))%Q 0.2 100.0]);
    program_setUniformValue "view" (UViewMatrixOf (EventsGL.camera self))]
   ++ loop_calls (body_calls t1 t2 0 1 36 (EventsGL.rotateVector self))
                 0 (EventsGL.cubeCoords self)
   ++ [vbo_release; program_release; texture_release t1; texture_release t2],
   Returned tt).
Proof.
  intros H1 H2 Hh. apply Z.eqb_neq in Hh.
  unfold EventsGL.paintGL, bind, eval, py_truediv. simpl.
  rewrite Hh. simpl.
  erewrite for_enumerate_returns
    by (intros; apply EventsGL_draw_cube_returns; simpl; eassumption).
  simpl. rewrite H1. simpl. rewrite H2. simpl.
  destruct self; reflexivity.
Qed.

Lemma EventsGL_loop_keeps_state (coords : list QVector3D) :
  forall i self,
    state_after (for_enumerate i coords EventsGL.draw_cube) self = self.
Proof.
  intros i self.
  apply (@preserves_for_enumerate EventsGL.EventsGL QVector3D _ (fun s => s)).
  intros j x. unfold EventsGL.draw_cube. frame.
Qed.

Lemma EventsGL_paintGL_preserves {B} (f : EventsGL.EventsGL -> B) :
  (forall b self, f (EventsGL.put_vbo b self) = f self) ->
  preserves f EventsGL.paintGL.
Proof.
  intros Hf.
  unfold EventsGL.paintGL, EventsGL.draw_cube, vbo_bind_m, vbo_release_m, on_vbo.
  repeat first [ apply preserves_modify; intros ?; apply Hf | frame_step ].
Qed.

Lemma EventsGL_paintGL_keeps_vbo_data :
  preserves (fun self => (buf_data (EventsGL.vbo self),
                          buf_bytes (EventsGL.vbo self)))
            EventsGL.paintGL.
Proof.
  unfold EventsGL.paintGL, EventsGL.draw_cube, vbo_bind_m, vbo_release_m, on_vbo.
  frame.
Qed.

Lemma EventsGL_paintGL_no_vbo_write :
  emits_only (fun c => negb (writes_vbo c)) EventsGL.paintGL.
Proof.
  unfold EventsGL.paintGL, EventsGL.draw_cube, vbo_bind_m, vbo_release_m, on_vbo.
  frame.
Qed.

(** Past the projection, a frame does not set the uniform again. *)
Lemma EventsGL_loop_no_projection (coords : list QVector3D) (i : Z) :
  emits_only (fun c => negb (sets_uniform "projection" c))
             (for_enumerate i coords EventsGL.draw_cube).
Proof.
  apply emits_only_for_enumerate. intros j x.
  unfold EventsGL.draw_cube. frame.
Qed.

(** How a frame of the events widget ends. *)
Lemma EventsGL_paintGL_outcome (self : EventsGL.EventsGL) :
  outcome_of EventsGL.paintGL self =
  if EventsGL.height self =? 0 then Raised ZeroDivisionError
  else match EventsGL.texture1 self, EventsGL.texture2 self with
       | Some _, Some _ => Returned tt
       | _, _ => Raised AttributeError
       end.
Proof.
  destruct (EventsGL.height self =? 0) eqn:Hh.
  - unfold outcome_of, EventsGL.paintGL, bind, eval, py_truediv. simpl.
    rewrite Hh. reflexivity.
  - apply Z.eqb_neq in Hh.
    destruct (EventsGL.texture1 self) as [t1|] eqn:H1;
      [destruct (EventsGL.texture2 self) as [t2|] eqn:H2|].
    + unfold outcome_of. rewrite (@EventsGL_paintGL_run self t1 t2 H1 H2 Hh). reflexivity.
    + apply Z.eqb_neq in Hh.
      unfold outcome_of, EventsGL.paintGL, bind, eval, py_truediv. simpl.
      rewrite Hh. simpl.
      destruct (EventsGL.cubeCoords self) as [|pos coords]; simpl.
      * rewrite H1. simpl. rewrite H2. reflexivity.
      * unfold bind, EventsGL.draw_cube, bind. simpl.
        rewrite H1. simpl. rewrite H2. reflexivity.
    + apply Z.eqb_neq in Hh.
      unfold outcome_of, EventsGL.paintGL, bind, eval, py_truediv. simpl.
      rewrite Hh. simpl.
      destruct (EventsGL.cubeCoords self) as [|pos coords]; simpl.
      * rewrite H1. reflexivity.
      * unfold bind, EventsGL.draw_cube, bind. simpl.
        rewrite H1. reflexivity.
Qed.

(* ================================================================== *)
(** * The frames of the two widgets *)

(** C5: wherever the uniform [projection] is set, in
    [CubeGL.initializeGL] and in [EventsGL.paintGL], its value is the
    identity matrix after the one library call [perspective], with field
    of view [camera.zoom], aspect ratio [self.width() / self.height()],
    near plane 0.2 and far plane 100.0; it is set once, or not at all when
    the division raises. *)
Theorem projection_uniform_is_perspective
        (c : Cube.CubeGL) (e : EventsGL.EventsGL) :
  uniforms_set "projection" (calls_of Cube.initializeGL c) =
    (if Cube.height c =? 0 then []
     else [UMatrix [perspective (zoom (Cube.camera c))
                      (inject_Z (Cube.width c) / inject_Z (Cube.height c))%Q
                      0.2 100.0]])
  /\ uniforms_set "projection" (calls_of EventsGL.paintGL e) =
    (if EventsGL.height e =? 0 then []
     else [UMatrix [perspective (zoom (EventsGL.camera e))
                      (inject_Z (EventsGL.width e)
                       / inject_Z (EventsGL.height e))%Q
                      0.2 100.0]]).
Proof.
  split.
  - rewrite Cube_initializeGL_projection. unfold py_truediv.
    destruct (Cube.height c =? 0); reflexivity.
  - unfold calls_of, EventsGL.paintGL, bind, eval, py_truediv. simpl.
    destruct (EventsGL.height e =? 0); [reflexivity|]. simpl.
    set (s1 := EventsGL.put_vbo _ e).
    pose proof (EventsGL_loop_no_projection (EventsGL.cubeCoords e) 0 s1) as Hl.
    pose proof (EventsGL_loop_keeps_state (EventsGL.cubeCoords e) 0 s1) as Hs.
    unfold calls_of, state_after in Hl, Hs.
    destruct (for_enumerate 0 (EventsGL.cubeCoords e) EventsGL.draw_cube s1)
      as [[s2 t2] [[]|ex]]; simpl in Hl, Hs; subst s2.
    + apply uniforms_set_none in Hl. unfold uniforms_set in *.
      subst s1. simpl.
      destruct (EventsGL.texture1 e); simpl;
        [destruct (EventsGL.texture2 e); simpl|];
        rewrite filter_map_app, Hl; reflexivity.
    + apply uniforms_set_none in Hl. unfold uniforms_set in *.
      simpl. rewrite Hl. reflexivity.
Qed.

(** C6: a frame leaves [cubeVertices], [cubeCoords] and what was
    allocated into the vertex buffer as it found them, and makes no call
    that writes into the buffer.  This holds for [CubeGL.paintGL] and for
    [EventsGL.paintGL], however the frame ends. *)
Theorem paintGL_keeps_vertex_buffer
        (c : Cube.CubeGL) (e : EventsGL.EventsGL) :
  let c' := state_after Cube.paintGL c in
  let e' := state_after EventsGL.paintGL e in
  Cube.cubeVertices c' = Cube.cubeVertices c
  /\ Cube.cubeCoords c' = Cube.cubeCoords c
  /\ buf_data (Cube.vbo c') = buf_data (Cube.vbo c)
  /\ buf_bytes (Cube.vbo c') = buf_bytes (Cube.vbo c)
  /\ forallb (fun k => negb (writes_vbo k)) (calls_of Cube.paintGL c) = true
  /\ EventsGL.cubeCoords e' = EventsGL.cubeCoords e
  /\ buf_data (EventsGL.vbo e') = buf_data (EventsGL.vbo e)
  /\ buf_bytes (EventsGL.vbo e') = buf_bytes (EventsGL.vbo e)
  /\ forallb (fun k => negb (writes_vbo k)) (calls_of EventsGL.paintGL e) = true.
Proof.
  cbv zeta.
  pose proof (Cube_paintGL_keeps_vbo_data c) as Hc. simpl in Hc.
  pose proof (EventsGL_paintGL_keeps_vbo_data e) as He. simpl in He.
  inversion Hc as [[Hc1 Hc2]]. inversion He as [[He1 He2]].
  repeat split; try assumption.
  - apply (@Cube_paintGL_preserves _ Cube.cubeVertices). reflexivity.
  - apply (@Cube_paintGL_preserves _ Cube.cubeCoords). reflexivity.
  - apply Cube_paintGL_no_vbo_write.
  - apply (@EventsGL_paintGL_preserves _ EventsGL.cubeCoords). reflexivity.
  - apply EventsGL_paintGL_no_vbo_write.
Qed.

(** C8: a frame of [CubeGL] draws the ten cubes of [cubeCoords], one
    [glDrawArrays] call each; the [model] uniform is set once per cube,
    and at the [i]-th draw call it is the identity matrix after the
    library calls [translate(cubeCoords[i])] and
    [rotate(30 * i, QVector3D(0.7, 0.2, 0.5))], nothing else. *)
Theorem Cube_frame_draws_ten_cubes
        (self : Cube.CubeGL) (t1 t2 : TexName) (i : nat) :
  Cube.texture1 self = Some t1 ->
  Cube.texture2 self = Some t2 ->
  Cube.cubeCoords self = Cube.cubeCoords_literal ->
  let calls := calls_of Cube.paintGL self in
  outcome_of Cube.paintGL self = Returned tt
  /\ List.length (draw_arrays calls) = 10%nat
  /\ List.length (uniforms_set "model" calls) = 10%nat
  /\ nth_error (draws_with_model None calls) i =
     option_map
       (fun pos =>
          (Some (UMatrix [translate pos;
                          rotate (30 * Z.of_nat i) (vec3 0.7 0.2 0.5)]),
           (pygl.GL_TRIANGLES, 0, size (Cube.cubeVertices self))))
       (nth_error (Cube.cubeCoords self) i).
Proof.
  intros H1 H2 Hc. cbv zeta. unfold outcome_of, calls_of.
  rewrite (@Cube_paintGL_run self t1 t2 H1 H2). cbn [fst snd].
  split; [reflexivity|].
  unfold draw_arrays, uniforms_set.
  rewrite !filter_map_app. cbn [filter_map draw_arrays_of uniform_of app].
  fold (draw_arrays (loop_calls
          (body_calls t1 t2 (Cube.texUnit1 self) (Cube.texUnit2 self)
             (size (Cube.cubeVertices self)) (vec3 0.7 0.2 0.5)) 0
          (Cube.cubeCoords self))).
  fold (uniforms_set "model" (loop_calls
          (body_calls t1 t2 (Cube.texUnit1 self) (Cube.texUnit2 self)
             (size (Cube.cubeVertices self)) (vec3 0.7 0.2 0.5)) 0
          (Cube.cubeCoords self))).
  rewrite draw_arrays_loop, !app_nil_r, repeat_length, uniforms_set_loop.
  rewrite Hc at 1 2.
  split; [reflexivity|]. split; [reflexivity|].
  cbn [app draws_with_model]. 
  rewrite draws_with_model_loop by reflexivity.
  rewrite expected_draws_nth. reflexivity.
Qed.

Lemma Cube_frame_draws_ten_cubes_witness :
  let self := Example.cube_ready in
  let calls := calls_of Cube.paintGL self in
  outcome_of Cube.paintGL self = Returned tt
  /\ List.length (draw_arrays calls) = 10%nat
  /\ List.length (uniforms_set "model" calls) = 10%nat
  /\ nth_error (draws_with_model None calls) 3 =
     option_map
       (fun pos =>
          (Some (UMatrix [translate pos;
                          rotate (30 * Z.of_nat 3) (vec3 0.7 0.2 0.5)]),
           (pygl.GL_TRIANGLES, 0, size (Cube.cubeVertices self))))
       (nth_error (Cube.cubeCoords self) 3).
Proof.
  exact (@Cube_frame_draws_ten_cubes Example.cube_ready texture1_obj
           texture2_obj 3%nat eq_refl eq_refl eq_refl).
Defined.

(** C3 (the code departs from it): on the same cubes, the two drawing
    loops make as many [glDrawArrays] calls, with the same mode and the
    same first index, but not the same vertex count: [CubeGL] passes
    [self.cubeVertices.size], the number of floats of the array, which is
    180, where [EventsGL] passes the number of vertices, 36. *)
Theorem paintGL_draw_counts_differ
        (c : Cube.CubeGL) (e : EventsGL.EventsGL) (t1 t2 t1' t2' : TexName) :
  Cube.texture1 c = Some t1 ->
  Cube.texture2 c = Some t2 ->
  EventsGL.texture1 e = Some t1' ->
  EventsGL.texture2 e = Some t2' ->
  EventsGL.height e <> 0 ->
  Cube.cubeVertices c = Cube.cubeVertices_literal ->
  EventsGL.cubeCoords e = Cube.cubeCoords c ->
  draw_arrays (calls_of Cube.paintGL c)
  = repeat (pygl.GL_TRIANGLES, 0, 180) (List.length (Cube.cubeCoords c))
  /\ draw_arrays (calls_of EventsGL.paintGL e)
     = repeat (pygl.GL_TRIANGLES, 0, 36) (List.length (Cube.cubeCoords c)).
Proof.
  intros H1 H2 H1' H2' Hh Hv Hc. unfold calls_of.
  rewrite (@Cube_paintGL_run c t1 t2 H1 H2).
  rewrite (@EventsGL_paintGL_run e t1' t2' H1' H2' Hh).
  cbn [fst snd]. unfold draw_arrays.
  rewrite !filter_map_app. cbn [filter_map draw_arrays_of app].
  fold (draw_arrays (loop_calls
          (body_calls t1 t2 (Cube.texUnit1 c) (Cube.texUnit2 c)
             (size (Cube.cubeVertices c)) (vec3 0.7 0.2 0.5)) 0
          (Cube.cubeCoords c))).
  fold (draw_arrays (loop_calls
          (body_calls t1' t2' 0 1 36 (EventsGL.rotateVector e)) 0
          (EventsGL.cubeCoords e))).
  rewrite !draw_arrays_loop, !app_nil_r, Hv, Hc. split; reflexivity.
Qed.

Lemma paintGL_draw_counts_differ_witness :
  draw_arrays (calls_of Cube.paintGL Example.cube_ready)
  = repeat (pygl.GL_TRIANGLES, 0, 180) 10
  /\ draw_arrays (calls_of EventsGL.paintGL Example.events_ready)
     = repeat (pygl.GL_TRIANGLES, 0, 36) 10.
Proof.
  refine (@paintGL_draw_counts_differ Example.cube_ready Example.events_ready
            texture1_obj texture2_obj texture1_obj texture2_obj
            eq_refl eq_refl eq_refl eq_refl _ eq_refl eq_refl).
  simpl. discriminate.
Defined.

(** C10: the aspect ratio [self.width() / self.height()] is computed with
    no test of the height: with a height of zero [CubeGL.initializeGL]
    and [EventsGL.paintGL] end on [ZeroDivisionError].  With a height
    other than zero the division has a value, [initializeGL] returns, and
    [paintGL] does not end on [ZeroDivisionError]. *)
Theorem aspect_ratio_division (c : Cube.CubeGL) (e : EventsGL.EventsGL) :
  (Cube.height c = 0 ->
   outcome_of Cube.initializeGL c = Raised ZeroDivisionError)
  /\ (EventsGL.height e = 0 ->
      outcome_of EventsGL.paintGL e = Raised ZeroDivisionError)
  /\ (Cube.height c <> 0 ->
      py_truediv (Cube.width c) (Cube.height c)
      = inr (inject_Z (Cube.width c) / inject_Z (Cube.height c))%Q
      /\ outcome_of Cube.initializeGL c = Returned tt)
  /\ (EventsGL.height e <> 0 ->
      py_truediv (EventsGL.width e) (EventsGL.height e)
      = inr (inject_Z (EventsGL.width e) / inject_Z (EventsGL.height e))%Q
      /\ outcome_of EventsGL.paintGL e <> Raised ZeroDivisionError).
Proof.
  rewrite Cube_initializeGL_outcome, EventsGL_paintGL_outcome.
  unfold py_truediv.
  split; [intros Hc; rewrite Hc; reflexivity|].
  split; [intros He; rewrite He; reflexivity|].
  split.
  - intros Hc. apply Z.eqb_neq in Hc. rewrite Hc. split; reflexivity.
  - intros He. apply Z.eqb_neq in He. rewrite He. split; [reflexivity|].
    destruct (EventsGL.texture1 e), (EventsGL.texture2 e); discriminate.
Qed.

Lemma aspect_ratio_division_witness :
  outcome_of Cube.initializeGL Example.cube_flat = Raised ZeroDivisionError
  /\ outcome_of EventsGL.paintGL Example.events_flat
     = Raised ZeroDivisionError
  /\ (py_truediv 640 480 = inr (inject_Z 640 / inject_Z 480)%Q
      /\ outcome_of Cube.initializeGL Example.cube_built = Returned tt)
  /\ (py_truediv 640 480 = inr (inject_Z 640 / inject_Z 480)%Q
      /\ outcome_of EventsGL.paintGL Example.events_ready
         <> Raised ZeroDivisionError).
Proof.
  destruct (aspect_ratio_division Example.cube_flat Example.events_flat)
    as (Hc0 & He0 & _ & _).
  destruct (aspect_ratio_division Example.cube_built Example.events_ready)
    as (_ & _ & Hc & He).
  split; [exact (Hc0 eq_refl)|]. split; [exact (He0 eq_refl)|].
  split; [apply Hc | apply He]; simpl; discriminate.
Defined.

Import EventApp.

(* ================================================================== *)
(** * 06-events: the window *)

Section WindowFacts.
Context {W : Type} `{GLWidgetOps W}.

Lemma emit_clicked (b : ButtonName) (arg : Z) (w : EventAppWindow W) :
  emit (clicked b) arg w =
  moveGLCamera
    match b with
    | UpBtn => "forward"
    | DownBtn => "backward"
    | LeftBtn => "left"
    | RightBtn => "right"
    end w.
Proof. destruct b; reflexivity. Qed.

Lemma emit_valueChanged (s : SliderName) (arg : Z) (w : EventAppWindow W) :
  emit (valueChanged s) arg w =
  match s with
  | CamX => turnCameraX arg w
  | CamY => turnCameraY arg w
  | XSlider | YSlider | ZSlider => rotateCubes w
  end.
Proof. destruct s; reflexivity. Qed.
End WindowFacts.

(** C7: each button forwards its own direction: a click on [upBtn],
    [downBtn], [leftBtn], [rightBtn] makes the one call
    [glWidget.moveCamera] with "forward", "backward", "left", "right",
    and changes nothing else of the window; [lastCamXVal], [lastCamYVal]
    and the sliders stay as they are. *)
Theorem buttons_forward_their_direction
        (W : Type) (ops : GLWidgetOps W) (w : EventAppWindow W)
        (r : EventAppWindow (list WidgetCall)) :
  handle (click UpBtn) w
  = put_glWidget (widget_moveCamera "forward" (glWidget w)) w
  /\ handle (click DownBtn) w
     = put_glWidget (widget_moveCamera "backward" (glWidget w)) w
  /\ handle (click LeftBtn) w
     = put_glWidget (widget_moveCamera "left" (glWidget w)) w
  /\ handle (click RightBtn) w
     = put_glWidget (widget_moveCamera "right" (glWidget w)) w
  /\ glWidget (handle (click UpBtn) r)
     = glWidget r ++ [called_moveCamera "forward"]
  /\ glWidget (handle (click DownBtn) r)
     = glWidget r ++ [called_moveCamera "backward"]
  /\ glWidget (handle (click LeftBtn) r)
     = glWidget r ++ [called_moveCamera "left"]
  /\ glWidget (handle (click RightBtn) r)
     = glWidget r ++ [called_moveCamera "right"]
  /\ (forall b : ButtonName,
        lastCamXVal (handle (click b) w) = lastCamXVal w
        /\ lastCamYVal (handle (click b) w) = lastCamYVal w
        /\ forall s, slider s (handle (click b) w) = slider s w).
Proof.
  repeat (split; [reflexivity|]).
  intros b. destruct b; repeat split; intros s; destruct s; reflexivity.
Qed.

(** C1, as the code has it: the four buttons and the sliders [camX] and
    [camY] are wired to the camera (a click calls the camera's [move] with
    the button's direction, a new slider value calls [lookAround] with the
    offsets and [pitchBound=True]); the sliders [xSlider], [ySlider] and
    [zSlider] are wired to the rotation of the cubes: their handler puts
    the three slider values into [rotateVector] and leaves the camera as
    it is. *)
Theorem controls_wired_to_camera_or_cubes
        (ops : CameraOps) (w : EventAppWindow EventsGL.EventsGL) (v : Z) :
  let cam w := EventsGL.camera (glWidget w) in
  cam (emit (clicked UpBtn) v w) = move "forward" (cam w)
  /\ cam (emit (clicked DownBtn) v w) = move "backward" (cam w)
  /\ cam (emit (clicked LeftBtn) v w) = move "left" (cam w)
  /\ cam (emit (clicked RightBtn) v w) = move "right" (cam w)
  /\ cam (emit (valueChanged CamX) v w)
     = lookAround (py_float (v - lastCamXVal w))
                  (py_float (value (camY w) - lastCamYVal w)) true (cam w)
  /\ cam (emit (valueChanged CamY) v w)
     = lookAround (py_float (value (camX w) - lastCamXVal w))
                  (py_float (v - lastCamYVal w)) true (cam w)
  /\ Forall
       (fun s =>
          cam (emit (valueChanged s) v w) = cam w
          /\ EventsGL.rotateVector (glWidget (emit (valueChanged s) v w))
             = vec3 (py_float (value (xSlider w)))
                    (py_float (value (ySlider w)))
                    (py_float (value (zSlider w))))
       [XSlider; YSlider; ZSlider].
Proof.
  cbv zeta. repeat (split; [reflexivity|]).
  repeat (constructor; [split; reflexivity|]). constructor.
Qed.

(** C1, as stated, fails on [xSlider]: moving it to 10 makes the one call
    [rotateCubes(10, 0, 0)] on the widget, and the camera of the events
    widget is after it what it was before, whatever the camera's methods
    do. *)
Lemma xSlider_leaves_the_camera :
  glWidget (handle (slide XSlider 10) Example.window)
  = [called_rotateCubes 10 0 0]
  /\ (forall ops : CameraOps,
        EventsGL.camera
          (glWidget (handle (slide XSlider 10) Example.events_window))
        = EventsGL.camera (glWidget Example.events_window)).
Proof. split; [reflexivity | intros ops; reflexivity]. Qed.

(* ------------------------------------------------------------------ *)
(** ** Offsets *)

Lemma last_cons (vs : list Z) :
  forall v v0, last (v :: vs) v0 = last vs v.
Proof.
  induction vs as [|v' vs IH]; intros v v0; [reflexivity|].
  change (last (v :: v' :: vs) v0) with (last (v' :: vs) v0).
  rewrite !IH. reflexivity.
Qed.

Lemma totalQ_float (l : list Z) :
  (totalQ (map py_float l) == py_float (total l))%Q.
Proof.
  induction l as [|d l IH]; [reflexivity|].
  change (totalQ (map py_float (d :: l)))
    with (py_float d + totalQ (map py_float l))%Q.
  change (total (d :: l)) with (d + total l).
  rewrite IH. unfold py_float. rewrite inject_Z_plus. reflexivity.
Qed.

Lemma total_offsets (vs : list Z) :
  forall v0, total (offsets v0 vs) = last vs v0 - v0.
Proof.
  induction vs as [|v vs IH]; intros v0.
  - simpl. lia.
  - change (total (offsets v0 (v :: vs))) with (v - v0 + total (offsets v vs)).
    rewrite IH, last_cons. lia.
Qed.

Lemma turnCameraX_sequence (vs : list Z) :
  forall w : EventAppWindow (list WidgetCall),
    let w' := fold_left (fun w v => turnCameraX v w) vs w in
    glWidget w' =
      glWidget w
      ++ map (fun d => called_turnAround
                         (py_float d)
                         (py_float (value (camY w) - lastCamYVal w)))
             (offsets (lastCamXVal w) vs)
    /\ lastCamXVal w' = last vs (lastCamXVal w).
Proof.
  induction vs as [|v vs IH]; intros w; cbv zeta.
  - simpl. rewrite app_nil_r. split; reflexivity.
  - destruct (IH (turnCameraX v w)) as [Hc Hl]. cbv zeta in Hc, Hl.
    change (fold_left (fun w v => turnCameraX v w) (v :: vs) w)
      with (fold_left (fun w v => turnCameraX v w) vs (turnCameraX v w)).
    rewrite Hc, Hl. split.
    + simpl. rewrite <- app_assoc. reflexivity.
    + simpl lastCamXVal. symmetry. apply last_cons.
Qed.

Lemma turnCameraY_sequence (vs : list Z) :
  forall w : EventAppWindow (list WidgetCall),
    let w' := fold_left (fun w v => turnCameraY v w) vs w in
    glWidget w' =
      glWidget w
      ++ map (fun d => called_turnAround
                         (py_float (value (camX w) - lastCamXVal w))
                         (py_float d))
             (offsets (lastCamYVal w) vs)
    /\ lastCamYVal w' = last vs (lastCamYVal w).
Proof.
  induction vs as [|v vs IH]; intros w; cbv zeta.
  - simpl. rewrite app_nil_r. split; reflexivity.
  - destruct (IH (turnCameraY v w)) as [Hc Hl]. cbv zeta in Hc, Hl.
    change (fold_left (fun w v => turnCameraY v w) (v :: vs) w)
      with (fold_left (fun w v => turnCameraY v w) vs (turnCameraY v w)).
    rewrite Hc, Hl. split.
    + simpl. rewrite <- app_assoc. reflexivity.
    + simpl lastCamYVal. symmetry. apply last_cons.
Qed.

(** C4: the offsets telescope.  For the values [v1 .. vn] delivered to
    [turnCameraX] from [lastCamXVal = v0], the x arguments of
    [glWidget.turnAround] are [v1 - v0, v2 - v1, ..., vn - v(n-1)], they
    add up to [vn - v0], and after each call [lastCamXVal] is the value
    just delivered; the same holds of [turnCameraY], [lastCamYVal] and
    the y arguments.  And when [camY] still holds [lastCamYVal], the y
    argument that [turnCameraX] passes is [float(0)], that is 0.0. *)
Theorem turnCamera_offsets_telescope
        (w : EventAppWindow (list WidgetCall)) (vs : list Z) :
  let wx := fold_left (fun w v => turnCameraX v w) vs w in
  let wy := fold_left (fun w v => turnCameraY v w) vs w in
  (glWidget wx =
     glWidget w
     ++ map (fun d => called_turnAround
                        (py_float d)
                        (py_float (value (camY w) - lastCamYVal w)))
            (offsets (lastCamXVal w) vs)
   /\ total (offsets (lastCamXVal w) vs)
      = last vs (lastCamXVal w) - lastCamXVal w
   /\ (totalQ (map py_float (offsets (lastCamXVal w) vs))
       == py_float (last vs (lastCamXVal w) - lastCamXVal w))%Q
   /\ lastCamXVal wx = last vs (lastCamXVal w)
   /\ forall v, lastCamXVal (turnCameraX v w) = v)
  /\ (glWidget wy =
        glWidget w
        ++ map (fun d => called_turnAround
                           (py_float (value (camX w) - lastCamXVal w))
                           (py_float d))
               (offsets (lastCamYVal w) vs)
      /\ total (offsets (lastCamYVal w) vs)
         = last vs (lastCamYVal w) - lastCamYVal w
      /\ (totalQ (map py_float (offsets (lastCamYVal w) vs))
          == py_float (last vs (lastCamYVal w) - lastCamYVal w))%Q
      /\ lastCamYVal wy = last vs (lastCamYVal w)
      /\ forall v, lastCamYVal (turnCameraY v w) = v)
  /\ (value (camY w) = lastCamYVal w ->
      forall v,
        glWidget (turnCameraX v w)
        = glWidget w
          ++ [called_turnAround (py_float (v - lastCamXVal w)) (py_float 0)]).
Proof.
  cbv zeta.
  destruct (turnCameraX_sequence vs w) as [Hx Hlx].
  destruct (turnCameraY_sequence vs w) as [Hy Hly].
  cbv zeta in Hx, Hlx, Hy, Hly.
  split; [|split].
  - split; [exact Hx|]. split; [apply total_offsets|].
    split; [rewrite totalQ_float, total_offsets; reflexivity|].
    split; [exact Hlx | reflexivity].
  - split; [exact Hy|]. split; [apply total_offsets|].
    split; [rewrite totalQ_float, total_offsets; reflexivity|].
    split; [exact Hly | reflexivity].
  - intros Heq v. simpl. rewrite Heq, Z.sub_diag. reflexivity.
Qed.

Lemma turnCamera_offsets_telescope_witness :
  glWidget
    (fold_left (fun w v => turnCameraX v w) [30; -45; 180] Example.window)
  = [called_turnAround (py_float 30) (py_float 0);
     called_turnAround (py_float (-75)) (py_float 0);
     called_turnAround (py_float 225) (py_float 0)]
  /\ total (offsets 0 [30; -45; 180]) = 180
  /\ glWidget (turnCameraX 30 Example.window)
     = [called_turnAround (py_float 30) (py_float 0)].
Proof.
  destruct (turnCamera_offsets_telescope Example.window [30; -45; 180])
    as ((Hx & Ht & _) & _ & Hz).
  split; [exact Hx|]. split; [exact Ht|].
  exact (Hz eq_refl 30).
Defined.

(* ------------------------------------------------------------------ *)
(** ** Ranges *)

Lemma Qle_bool_float (a b : Z) :
  Qle_bool (py_float a) (py_float b) = (a <=? b).
Proof. unfold Qle_bool, py_float; simpl. rewrite !Z.mul_1_r. reflexivity. Qed.

Lemma in_offset_rangeQ_float (z : Z) :
  -360 <= z <= 360 -> in_offset_rangeQ (py_float z) = true.
Proof.
  intros Hz. unfold in_offset_rangeQ.
  change (inject_Z (-360)) with (py_float (-360)).
  change (inject_Z 360) with (py_float 360).
  rewrite !Qle_bool_float. apply andb_true_intro; split; apply Z.leb_le; lia.
Qed.

Lemma in_slider_range_true (v : Z) :
  -180 <= v <= 180 -> in_slider_range v = true.
Proof.
  intros Hv. unfold in_slider_range.
  apply andb_true_intro; split; apply Z.leb_le; lia.
Qed.

Lemma setRange_ok (q : QSlider) : slider_ok (setRange (-180) 180 q).
Proof. unfold slider_ok, setRange, bound; simpl. lia. Qed.

Lemma setValue_ok (v : Z) (q : QSlider) :
  slider_ok q -> slider_ok (fst (setValue v q)).
Proof.
  intros (Hmin & Hmax & Hv). unfold slider_ok, setValue, bound; simpl.
  rewrite Hmin, Hmax. lia.
Qed.

Lemma init_ok (q1 q2 q3 q4 q5 : QSlider) :
  window_ok (init q1 q2 q3 q4 q5 []).
Proof.
  unfold window_ok, init; cbn [slider camX camY xSlider ySlider zSlider
                               lastCamXVal lastCamYVal glWidget].
  split; [intros s; destruct s; apply setRange_ok|].
  split; [apply (setRange_ok q1)|].
  split; [apply (setRange_ok q2)|reflexivity].
Qed.

Lemma put_slider_ok (s : SliderName) (q : QSlider) (w : EventAppWindow (list WidgetCall)) :
  slider_ok q -> window_ok w -> window_ok (put_slider s q w).
Proof.
  intros Hq (Hs & Hx & Hy & Hl). unfold window_ok.
  split; [|destruct s; simpl; auto].
  intros s'. specialize (Hs s'). destruct s, s'; simpl in *; assumption.
Qed.

Lemma moveGLCamera_ok (d : string) (w : EventAppWindow (list WidgetCall)) :
  window_ok w -> window_ok (moveGLCamera d w).
Proof.
  intros (Hs & Hx & Hy & Hl). unfold window_ok, moveGLCamera.
  split; [intros s; specialize (Hs s); destruct s; assumption|].
  cbn [lastCamXVal lastCamYVal glWidget put_glWidget widget_moveCamera
       recording_widget].
  rewrite forallb_app, Hl. auto.
Qed.

Lemma turnCameraX_ok (v : Z) (w : EventAppWindow (list WidgetCall)) :
  -180 <= v <= 180 -> window_ok w -> window_ok (turnCameraX v w).
Proof.
  intros Hv (Hs & Hx & Hy & Hl). unfold window_ok, turnCameraX.
  split; [intros s; specialize (Hs s); destruct s; assumption|].
  cbn [lastCamXVal lastCamYVal glWidget put_glWidget put_lastCamXVal
       widget_turnAround recording_widget].
  destruct (Hs CamY) as (_ & _ & Hc). cbn [slider] in Hc.
  rewrite forallb_app, Hl. cbn [forallb forwards_in_range].
  rewrite !in_offset_rangeQ_float by lia. auto.
Qed.

Lemma turnCameraY_ok (v : Z) (w : EventAppWindow (list WidgetCall)) :
  -180 <= v <= 180 -> window_ok w -> window_ok (turnCameraY v w).
Proof.
  intros Hv (Hs & Hx & Hy & Hl). unfold window_ok, turnCameraY.
  split; [intros s; specialize (Hs s); destruct s; assumption|].
  cbn [lastCamXVal lastCamYVal glWidget put_glWidget put_lastCamYVal
       widget_turnAround recording_widget].
  destruct (Hs CamX) as (_ & _ & Hc). cbn [slider] in Hc.
  rewrite forallb_app, Hl. cbn [forallb forwards_in_range].
  rewrite !in_offset_rangeQ_float by lia. auto.
Qed.

Lemma rotateCubes_ok (w : EventAppWindow (list WidgetCall)) : window_ok w -> window_ok (rotateCubes w).
Proof.
  intros (Hs & Hx & Hy & Hl). unfold window_ok, rotateCubes.
  split; [intros s; specialize (Hs s); destruct s; assumption|].
  cbn [lastCamXVal lastCamYVal glWidget put_glWidget
       widget_rotateCubes recording_widget].
  destruct (Hs XSlider) as (_ & _ & Hcx).
  destruct (Hs YSlider) as (_ & _ & Hcy).
  destruct (Hs ZSlider) as (_ & _ & Hcz). cbn [slider] in Hcx, Hcy, Hcz.
  rewrite forallb_app, Hl. cbn [forallb forwards_in_range].
  rewrite !in_slider_range_true by assumption. auto.
Qed.

Lemma handle_ok (e : UIEvent) (w : EventAppWindow (list WidgetCall)) :
  window_ok w -> window_ok (handle e w).
Proof.
  intros Hw. destruct e as [b|s v].
  - unfold handle. destruct b; apply moveGLCamera_ok; assumption.
  - unfold handle.
    pose proof (setValue_ok v (proj1 Hw s)) as Hq.
    destruct (setValue v (slider s w)) as [q changed]. cbn [fst] in Hq.
    pose proof (put_slider_ok s Hq Hw) as Hw'.
    destruct changed; [|assumption].
    rewrite emit_valueChanged.
    destruct s;
      first [ apply turnCameraX_ok | apply turnCameraY_ok
            | apply rotateCubes_ok ];
      solve [ assumption | apply Hq ].
Qed.

Lemma run_ok (es : list UIEvent) :
  forall w : EventAppWindow (list WidgetCall), window_ok w -> window_ok (run es w).
Proof.
  induction es as [|e es IH]; intros w Hw; [assumption|].
  apply IH, handle_ok, Hw.
Qed.

(** C2, as the code has it: after the constructor and any sequence of UI
    events, the five sliders hold values within [-180, 180] and so do the
    three values forwarded to [rotateCubes]; what [turnAround] receives
    are offsets, differences of two such values, and they stay within
    [-360, 360].  The handlers forward what they compute as it is: the
    bounds come from the slider ranges alone. *)
Theorem forwarded_angles_stay_in_range
        (camX0 camY0 xSlider0 ySlider0 zSlider0 : QSlider)
        (es : list UIEvent) (r : EventAppWindow (list WidgetCall))
        (newVal : Z) :
  let w := run es (init camX0 camY0 xSlider0 ySlider0 zSlider0 []) in
  Forall (fun s => in_slider_range (value (slider s w)) = true)
         [CamX; CamY; XSlider; YSlider; ZSlider]
  /\ forallb forwards_in_range (glWidget w) = true
  /\ glWidget (turnCameraX newVal r)
     = glWidget r
       ++ [called_turnAround
             (py_float (newVal - lastCamXVal r))
             (py_float (value (camY r) - lastCamYVal r))]
  /\ glWidget (turnCameraY newVal r)
     = glWidget r
       ++ [called_turnAround
             (py_float (value (camX r) - lastCamXVal r))
             (py_float (newVal - lastCamYVal r))]
  /\ glWidget (rotateCubes r)
     = glWidget r
       ++ [called_rotateCubes (value (xSlider r)) (value (ySlider r))
                              (value (zSlider r))].
Proof.
  cbv zeta.
  destruct (run_ok es (init_ok camX0 camY0 xSlider0 ySlider0 zSlider0))
    as (Hs & _ & _ & Hl).
  split; [|split; [exact Hl|repeat split]].
  repeat (constructor;
          [apply in_slider_range_true;
           match goal with |- context [slider ?s _] => apply (Hs s) end|]).
  constructor.
Qed.

(** C2, as stated, fails on the offsets: taking [camX] from -180 to 180
    forwards the offset 360.0 to [turnAround]. *)
Lemma turnAround_offset_leaves_slider_range :
  glWidget (run [slide CamX (-180); slide CamX 180] Example.window)
  = [called_turnAround (py_float (-180)) (py_float 0);
     called_turnAround (py_float 360) (py_float 0)]
  /\ forallb forwards_in_slider_range
       (glWidget (run [slide CamX (-180); slide CamX 180] Example.window))
     = false.
Proof. split; reflexivity. Qed.

(* ================================================================== *)
(** * What a method does not look at *)

Section BlindFacts.
Context {S : Type} (erase : S -> S).

Lemma blind_to_bind {A B} (m : M S A) (f : A -> M S B) :
  blind_to erase m -> (forall a, blind_to erase (f a)) ->
  blind_to erase (bind m f).
Proof.
  intros Hm Hf s s' He.
  destruct (Hm s s' He) as (Hc & Ho & Hs).
  unfold calls_of, outcome_of, state_after. rewrite !run_bind.
  rewrite <- Ho. destruct (outcome_of m s) as [a|ex]; cbn [fst snd].
  - destruct (Hf a _ _ Hs) as (Hc' & Ho' & Hs').
    rewrite Hc, Hc', Ho'. auto.
  - rewrite Hc. auto.
Qed.

Lemma blind_to_ret {A} (a : A) : blind_to erase (ret a).
Proof. intros s s' He. auto. Qed.

Lemma blind_to_call (c : Call) : blind_to erase (call c).
Proof. intros s s' He. auto. Qed.

Lemma blind_to_raise {A} (e : PyExn) : blind_to erase (@raise S A e).
Proof. intros s s' He. auto. Qed.

Lemma blind_to_eval {A} (r : PyExn + A) : blind_to erase (eval r).
Proof. destruct r; intros s s' He; auto. Qed.

Lemma blind_to_on_object {A} (o : option A) : blind_to erase (on_object o).
Proof. destruct o; intros s s' He; auto. Qed.

Lemma blind_to_gets {A} (f : S -> A) :
  (forall s, f (erase s) = f s) -> blind_to erase (gets f).
Proof.
  intros Hf s s' He. unfold calls_of, outcome_of, state_after, gets.
  cbn [fst snd]. rewrite <- (Hf s), <- (Hf s'), He. auto.
Qed.

Lemma blind_to_modify (g : S -> S) :
  (forall s, erase (g s) = erase s) -> blind_to erase (modify g).
Proof.
  intros Hg s s' He. unfold calls_of, outcome_of, state_after, modify.
  cbn [fst snd]. rewrite !Hg. auto.
Qed.

Lemma blind_to_modify_commute (g : S -> S) :
  (forall s, erase (g s) = g (erase s)) -> blind_to erase (modify g).
Proof.
  intros Hg s s' He. unfold calls_of, outcome_of, state_after, modify.
  cbn [fst snd]. rewrite !Hg, He. auto.
Qed.

Lemma blind_to_for_enumerate {A} (body : Z -> A -> M S unit) (l : list A) :
  (forall i x, blind_to erase (body i x)) ->
  forall i, blind_to erase (for_enumerate i l body).
Proof.
  intros Hb. induction l as [|x l IH]; intros i; simpl.
  - apply blind_to_ret.
  - apply blind_to_bind; [apply Hb | intros _; apply IH].
Qed.
End BlindFacts.

#[local] Hint Resolve blind_to_ret blind_to_call blind_to_raise blind_to_eval
  blind_to_on_object : frame.

Ltac blind_step :=
  first
    [ apply blind_to_bind; [|intros ?]
    | apply blind_to_for_enumerate; intros ? ?
    | apply blind_to_gets; intros []; reflexivity
    | apply blind_to_modify; intros []; reflexivity
    | apply blind_to_modify_commute; intros []; reflexivity
    | solve [auto with frame] ].

Lemma Cube_paintGL_blind_to_vbo : blind_to Cube_without_vbo Cube.paintGL.
Proof.
  unfold Cube.paintGL, Cube.draw_cube, vbo_bind_m, vbo_release_m, on_vbo.
  repeat blind_step.
Qed.

Lemma EventsGL_paintGL_blind_to_vbo :
  blind_to EventsGL_without_vbo EventsGL.paintGL.
Proof.
  unfold EventsGL.paintGL, EventsGL.draw_cube, vbo_bind_m, vbo_release_m, on_vbo.
  repeat blind_step.
Qed.

Lemma Cube_paintGL_blind_to_camera (c0 : Camera) :
  blind_to (Cube_put_camera c0) Cube.paintGL.
Proof.
  unfold Cube.paintGL, Cube.draw_cube, vbo_bind_m, vbo_release_m, on_vbo.
  repeat blind_step.
Qed.

(** X8: two frames in a row, with nothing done to the widget between them,
    make the same calls and end the same way, whatever the widget and
    however the frame ends: a frame changes the vertex buffer object
    only, and does not look at it. *)
Theorem frames_repeat (c : Cube.CubeGL) (e : EventsGL.EventsGL) :
  calls_of Cube.paintGL (state_after Cube.paintGL c)
  = calls_of Cube.paintGL c
  /\ outcome_of Cube.paintGL (state_after Cube.paintGL c)
     = outcome_of Cube.paintGL c
  /\ calls_of EventsGL.paintGL (state_after EventsGL.paintGL e)
     = calls_of EventsGL.paintGL e
  /\ outcome_of EventsGL.paintGL (state_after EventsGL.paintGL e)
     = outcome_of EventsGL.paintGL e.
Proof.
  assert (Hc : Cube_without_vbo (state_after Cube.paintGL c)
               = Cube_without_vbo c).
  { apply (@Cube_paintGL_preserves _ Cube_without_vbo). reflexivity. }
  assert (He : EventsGL_without_vbo (state_after EventsGL.paintGL e)
               = EventsGL_without_vbo e).
  { apply (@EventsGL_paintGL_preserves _ EventsGL_without_vbo). reflexivity. }
  destruct (Cube_paintGL_blind_to_vbo Hc) as (H1 & H2 & _).
  destruct (EventsGL_paintGL_blind_to_vbo He) as (H3 & H4 & _).
  auto.
Qed.

Lemma Cube_paintGL_sets_only_model (name : string) :
  String.eqb "model" name = false ->
  emits_only (fun k => negb (sets_uniform name k)) Cube.paintGL.
Proof.
  intros Hn.
  unfold Cube.paintGL, Cube.draw_cube, vbo_bind_m, vbo_release_m, on_vbo.
  repeat first
    [ frame_step
    | apply emits_only_call; unfold sets_uniform; rewrite Hn; reflexivity ].
Qed.

(** X7: the frame of [CubeGL] does not depend on the camera: [paintGL] sets
    neither [view] nor [projection], which [initializeGL] fixed once. *)
Theorem Cube_frame_ignores_camera (self : Cube.CubeGL) (cam : Camera) :
  calls_of Cube.paintGL (Cube_put_camera cam self)
  = calls_of Cube.paintGL self
  /\ outcome_of Cube.paintGL (Cube_put_camera cam self)
     = outcome_of Cube.paintGL self
  /\ uniforms_set "view" (calls_of Cube.paintGL self) = []
  /\ uniforms_set "projection" (calls_of Cube.paintGL self) = [].
Proof.
  assert (Hc : Cube_put_camera cam (Cube_put_camera cam self)
               = Cube_put_camera cam self) by reflexivity.
  destruct (Cube_paintGL_blind_to_camera Hc) as (H1 & H2 & _).
  split; [exact H1|]. split; [exact H2|].
  split; apply uniforms_set_none.
  - apply (@Cube_paintGL_sets_only_model "view" eq_refl).
  - apply (@Cube_paintGL_sets_only_model "projection" eq_refl).
Qed.

(* ================================================================== *)
(** * 05-cube: from the constructor to the frames *)

Lemma in_order_app (t1 t2 : list Call) :
  forall b,
    in_order b (t1 ++ t2) =
    match in_order b t1 with
    | Some b' => in_order b' t2
    | None => None
    end.
Proof.
  induction t1 as [|c t1 IH]; intros b; simpl; [reflexivity|].
  destruct (step_bound b c); [apply IH | reflexivity].
Qed.

Lemma in_order_loop (t1 t2 : TexName) (u1 u2 n : Z) (axis : QVector3D)
      (v : bool) (coords : list QVector3D) :
  forall i,
    in_order (mkBound true v true)
             (loop_calls (body_calls t1 t2 u1 u2 n axis) i coords)
    = Some (mkBound true v true).
Proof.
  induction coords as [|pos coords IH]; intros i; simpl; [reflexivity|].
  apply IH.
Qed.

Lemma texture_binds_loop (u1 u2 n : Z) (axis : QVector3D)
      (coords : list QVector3D) :
  forall i,
    texture_binds texture1_obj
      (loop_calls (body_calls texture1_obj texture2_obj u1 u2 n axis) i coords)
    = repeat u1 (List.length coords)
    /\ texture_binds texture2_obj
         (loop_calls (body_calls texture1_obj texture2_obj u1 u2 n axis) i coords)
       = repeat u2 (List.length coords).
Proof.
  unfold texture_binds.
  induction coords as [|pos coords IH]; intros i; simpl; [auto|].
  destruct (IH (i + 1)) as [H1 H2]. rewrite H1, H2. auto.
Qed.

(** What [initializeGL] makes of a widget that has a height. *)
Lemma Cube_initializeGL_run_state (self : Cube.CubeGL) :
  Cube.height self <> 0 ->
  state_after Cube.initializeGL self =
  Cube.put_texture2 (Some texture2_obj)
    (Cube.put_texture1 (Some texture1_obj)
       (Cube.put_vbo
          (mkBuffer true false (Cube.cubeVertices self)
                    (sizeof_c_float * size (Cube.cubeVertices self)))
          self)).
Proof.
  intros Hh. apply Z.eqb_neq in Hh.
  unfold state_after, Cube.initializeGL, bind, eval, py_truediv. simpl.
  rewrite Hh. simpl. destruct self; reflexivity.
Qed.

(** The calls of [initializeGL], from a widget that has a height. *)
Lemma Cube_initializeGL_calls (self : Cube.CubeGL) :
  Cube.height self <> 0 ->
  calls_of Cube.initializeGL self =
  [py_print (PStr "gl initial"); py_print PGlInfo; context_create;
   context_aboutToBeDestroyed_connect_cleanUpGl;
   initializeOpenGLFunctions; glClearColor 0.0 0.4 0.4 0;
   glEnable pygl.GL_DEPTH_TEST; glEnable pygl.GL_TEXTURE_2D;
   program_new; loadVertexShader "cube"; loadFragmentShader "cube";
   program_addShader_vertex; program_addShader_fragment;
   program_bindAttributeLocation "aPos" 0;
   program_bindAttributeLocation "aTexCoord" 1;
   program_link; py_print (PLinked "cube shader program is linked: ");
   program_bind;
   program_setUniformValue "projection"
     (UMatrix [perspective (zoom (Cube.camera self))
                 (inject_Z (Cube.width self)
                  / inject_Z (Cube.height self))%Q 0.2 100.0]);
   program_setUniformValue "view" (UViewMatrixOf (Cube.camera self));
   program_setUniformValue "myTexture1" (UInt (Cube.texUnit1 self));
   program_setUniformValue "myTexture2" (UInt (Cube.texUnit2 self));
   vbo_create; vbo_bind;
   vbo_allocate (Cube.cubeVertices self)
                (sizeof_c_float * size (Cube.cubeVertices self));
   vao_create; vaoBinder_new;
   glEnableVertexAttribArray 0;
   glVertexAttribPointer 0 3 pygl.GL_FLOAT pygl.GL_FALSE 20 0;
   glEnableVertexAttribArray 1;
   glVertexAttribPointer 1 2 pygl.GL_FLOAT pygl.GL_FALSE 20 12;
   texture_new texture1_obj; texture_create texture1_obj;
   texture_bind texture1_obj (Cube.texUnit1 self);
   texture_setData texture1_obj (Cube.image1 self);
   texture_setMinMagFilters texture1_obj Nearest Nearest;
   texture_setWrapMode texture1_obj DirectionS Repeat;
   texture_setWrapMode texture1_obj DirectionT Repeat;
   texture_new texture2_obj; texture_create texture2_obj;
   texture_bind texture2_obj (Cube.texUnit2 self);
   texture_setData texture2_obj (Cube.image2 self);
   texture_setMinMagFilters texture2_obj Linear Linear;
   texture_setWrapMode texture2_obj DirectionS Repeat;
   texture_setWrapMode texture2_obj DirectionT Repeat;
   vbo_release; vaoBinder_del; py_print (PStr "gl initialized")].
Proof.
  intros Hh. apply Z.eqb_neq in Hh.
  unfold calls_of, Cube.initializeGL, bind, eval, py_truediv. simpl.
  rewrite Hh. simpl. reflexivity.
Qed.

(** A frame of the widget [initializeGL] has just set up. *)
Lemma Cube_first_frame (self : Cube.CubeGL) :
  Cube.height self <> 0 ->
  let ready := state_after Cube.initializeGL self in
  outcome_of Cube.paintGL ready = Returned tt
  /\ calls_of Cube.paintGL ready =
     [glClear (Z.lor pygl.GL_COLOR_BUFFER_BIT pygl.GL_DEPTH_BUFFER_BIT);
      vao_bind; vbo_bind; program_bind]
     ++ loop_calls
          (body_calls texture1_obj texture2_obj (Cube.texUnit1 self)
             (Cube.texUnit2 self) (size (Cube.cubeVertices self))
             (vec3 0.7 0.2 0.5))
          0 (Cube.cubeCoords self)
     ++ [vbo_release; program_release; texture_release texture1_obj;
         texture_release texture2_obj].
Proof.
  intros Hh. cbv zeta. rewrite (Cube_initializeGL_run_state self Hh).
  set (ready := Cube.put_texture2 _ _).
  unfold outcome_of, calls_of.
  rewrite (@Cube_paintGL_run ready texture1_obj texture2_obj eq_refl eq_refl).
  split; reflexivity.
Qed.



(** X2: a frame asked of a widget whose textures are still [None], as the
    constructor leaves them, ends on [AttributeError] before any draw
    call. *)
Theorem Cube_paintGL_without_textures (self : Cube.CubeGL) :
  Cube.texture1 self = None \/ Cube.texture2 self = None ->
  outcome_of Cube.paintGL self = Raised AttributeError
  /\ draw_arrays (calls_of Cube.paintGL self) = [].
Proof.
  destruct self as [cam im1 im2 vb [t1|] [t2|] u1 u2 verts coords w h];
    simpl; intros [Ht|Ht]; try discriminate Ht;
    destruct coords as [|pos coords]; split; reflexivity.
Qed.

Lemma Cube_paintGL_without_textures_witness :
  outcome_of Cube.paintGL Example.cube_built = Raised AttributeError
  /\ draw_arrays (calls_of Cube.paintGL Example.cube_built) = [].
Proof.
  apply (Cube_paintGL_without_textures Example.cube_built).
  left. reflexivity.
Defined.



(** X4: the two attributes that [initializeGL] declares tile a vertex of
    five floats (three for the position, two for the texture coordinate,
    20 bytes in all), and the buffer gets four bytes per float of
    [cubeVertices]; each draw call of the frame then names as many
    vertices as the array has floats, a range five times the bytes
    allocated. *)
Theorem Cube_draw_range_and_buffer (self : Cube.CubeGL) :
  Cube.height self <> 0 ->
  let ready := state_after Cube.initializeGL self in
  attrib_pointers (calls_of Cube.initializeGL self)
  = [(0, 3, 20, 0); (1, 2, 20, 12)]
  /\ buf_bytes (Cube.vbo ready) = 4 * size (Cube.cubeVertices self)
  /\ Forall (fun d => snd d * 20 = 5 * buf_bytes (Cube.vbo ready))
            (draw_arrays (calls_of Cube.paintGL ready)).
Proof.
  intros Hh. cbv zeta. destruct (Cube_first_frame self Hh) as [_ Hc].
  cbv zeta in Hc. rewrite Hc, (Cube_initializeGL_calls self Hh).
  rewrite (Cube_initializeGL_run_state self Hh).
  split; [reflexivity|]. split; [reflexivity|].
  unfold draw_arrays. rewrite !filter_map_app.
  cbn [filter_map draw_arrays_of app].
  fold (draw_arrays (loop_calls
          (body_calls texture1_obj texture2_obj (Cube.texUnit1 self)
             (Cube.texUnit2 self) (size (Cube.cubeVertices self))
             (vec3 0.7 0.2 0.5)) 0 (Cube.cubeCoords self))).
  rewrite draw_arrays_loop, app_nil_r.
  apply Forall_forall. intros d Hd. apply repeat_spec in Hd. subst d.
  cbn [snd Cube.vbo Cube.put_texture2 Cube.put_texture1 Cube.put_vbo
       buf_bytes]. unfold sizeof_c_float. lia.
Qed.

Lemma Cube_draw_range_and_buffer_witness :
  let ready := state_after Cube.initializeGL Example.cube_built in
  attrib_pointers (calls_of Cube.initializeGL Example.cube_built)
  = [(0, 3, 20, 0); (1, 2, 20, 12)]
  /\ buf_bytes (Cube.vbo ready) = 4 * 180
  /\ Forall (fun d => snd d * 20 = 5 * buf_bytes (Cube.vbo ready))
            (draw_arrays (calls_of Cube.paintGL ready)).
Proof.
  apply (Cube_draw_range_and_buffer Example.cube_built).
  simpl. discriminate.
Defined.

(** X5: the unit each texture is bound to, in [initializeGL] and at every
    cube of the frame that follows, is the unit [initializeGL] gave to its
    sampler: [texUnit1] for [myTexture1] and [texture1], [texUnit2] for
    [myTexture2] and [texture2]. *)
Theorem Cube_samplers_match_texture_units (self : Cube.CubeGL) :
  Cube.height self <> 0 ->
  let init_calls := calls_of Cube.initializeGL self in
  let frame := calls_of Cube.paintGL (state_after Cube.initializeGL self) in
  uniforms_set "myTexture1" init_calls = [UInt (Cube.texUnit1 self)]
  /\ uniforms_set "myTexture2" init_calls = [UInt (Cube.texUnit2 self)]
  /\ texture_binds texture1_obj init_calls = [Cube.texUnit1 self]
  /\ texture_binds texture2_obj init_calls = [Cube.texUnit2 self]
  /\ texture_binds texture1_obj frame
     = repeat (Cube.texUnit1 self) (List.length (Cube.cubeCoords self))
  /\ texture_binds texture2_obj frame
     = repeat (Cube.texUnit2 self) (List.length (Cube.cubeCoords self)).
Proof.
  intros Hh. cbv zeta. destruct (Cube_first_frame self Hh) as [_ Hc].
  cbv zeta in Hc. rewrite Hc, (Cube_initializeGL_calls self Hh).
  repeat (split; [reflexivity|]).
  destruct (texture_binds_loop (Cube.texUnit1 self) (Cube.texUnit2 self)
              (size (Cube.cubeVertices self)) (vec3 0.7 0.2 0.5)
              (Cube.cubeCoords self) 0) as [H1 H2].
  unfold texture_binds in *. rewrite !filter_map_app.
  cbn [filter_map app TexName_eqb]. rewrite H1, H2, !app_nil_r. auto.
Qed.

Lemma Cube_samplers_match_texture_units_witness :
  let init_calls := calls_of Cube.initializeGL Example.cube_built in
  let frame := calls_of Cube.paintGL Example.cube_ready in
  uniforms_set "myTexture1" init_calls = [UInt 0]
  /\ uniforms_set "myTexture2" init_calls = [UInt 1]
  /\ texture_binds texture1_obj init_calls = [0]
  /\ texture_binds texture2_obj init_calls = [1]
  /\ texture_binds texture1_obj frame = repeat 0 10
  /\ texture_binds texture2_obj frame = repeat 1 10.
Proof.
  apply (Cube_samplers_match_texture_units Example.cube_built).
  simpl. discriminate.
Defined.

(** X6: from [initializeGL] through the frame that follows, every call of
    [CubeGL] comes in order: uniforms are set and cubes drawn with the
    program bound, the buffer is allocated and the attribute pointers set
    with the buffer bound, pointers and draw calls come with the vertex
    array bound.  [initializeGL] leaves the program bound; a frame leaves
    program and buffer released and the vertex array bound. *)
Theorem Cube_calls_in_order (self : Cube.CubeGL) (b : Bound) :
  Cube.height self <> 0 ->
  in_order (mkBound false false false) (calls_of Cube.initializeGL self)
  = Some (mkBound true false false)
  /\ in_order b (calls_of Cube.paintGL (state_after Cube.initializeGL self))
     = Some (mkBound false false true).
Proof.
  intros Hh. destruct (Cube_first_frame self Hh) as [_ Hc].
  cbv zeta in Hc. rewrite Hc, (Cube_initializeGL_calls self Hh).
  split; [reflexivity|].
  cbn [app in_order step_bound program_is_bound vbo_is_bound vao_is_bound].
  rewrite in_order_app, in_order_loop. reflexivity.
Qed.

Lemma Cube_calls_in_order_witness :
  in_order (mkBound false false false)
           (calls_of Cube.initializeGL Example.cube_built)
  = Some (mkBound true false false)
  /\ in_order (mkBound true false false)
              (calls_of Cube.paintGL Example.cube_ready)
     = Some (mkBound false false true).
Proof.
  apply (Cube_calls_in_order Example.cube_built (mkBound true false false)).
  simpl. discriminate.
Defined.

(* ================================================================== *)
(** * 06-events: frames of the widget *)

Lemma EventsGL_loop_sets_only_model (name : string) (coords : list QVector3D)
      (i : Z) :
  String.eqb "model" name = false ->
  emits_only (fun c => negb (sets_uniform name c))
             (for_enumerate i coords EventsGL.draw_cube).
Proof.
  intros Hn. apply emits_only_for_enumerate. intros j x.
  unfold EventsGL.draw_cube.
  repeat first
    [ frame_step
    | apply emits_only_call; unfold sets_uniform; rewrite Hn; reflexivity ].
Qed.

(** The uniforms other than [model] that a frame sets: [projection] and
    [view], once each, unless the division raises first. *)
Lemma EventsGL_paintGL_uniforms (e : EventsGL.EventsGL) (name : string) :
  String.eqb "model" name = false ->
  uniforms_set name (calls_of EventsGL.paintGL e) =
  if EventsGL.height e =? 0 then []
  else uniforms_set name
         [program_setUniformValue "projection"
            (UMatrix [perspective (zoom (EventsGL.camera e))
                        (inject_Z (EventsGL.width e)
                         / inject_Z (EventsGL.height e))%Q 0.2 100.0]);
          program_setUniformValue "view"
            (UViewMatrixOf (EventsGL.camera e))].
Proof.
  intros Hn.
  unfold calls_of, EventsGL.paintGL, bind, eval, py_truediv. simpl.
  destruct (EventsGL.height e =? 0); [reflexivity|]. simpl.
  set (s1 := EventsGL.put_vbo _ e).
  pose proof (@EventsGL_loop_sets_only_model name (EventsGL.cubeCoords e) 0 Hn s1)
    as Hl.
  pose proof (EventsGL_loop_keeps_state (EventsGL.cubeCoords e) 0 s1) as Hs.
  unfold calls_of, state_after in Hl, Hs.
  destruct (for_enumerate 0 (EventsGL.cubeCoords e) EventsGL.draw_cube s1)
    as [[s2 t2] [[]|ex]]; simpl in Hl, Hs; subst s2;
    apply uniforms_set_none in Hl; unfold uniforms_set in *.
  - subst s1. cbn [EventsGL.texture1 EventsGL.texture2 EventsGL.put_vbo].
    destruct (EventsGL.texture1 e); simpl;
      [destruct (EventsGL.texture2 e); simpl|];
      repeat match goal with
             | |- context [if ?c then _ else _] => destruct c
             end;
      rewrite ?filter_map_app, Hl; reflexivity.
  - simpl.
    repeat match goal with
           | |- context [if ?c then _ else _] => destruct c
           end;
    rewrite Hl; reflexivity.
Qed.

(** X10: a frame painted after [turnAround(x, y)] shows the turned camera:
    its [view] uniform is the view matrix of the camera after
    [lookAround(x, y, pitchBound=True)], its [projection] uses that
    camera's zoom; [turnAround] asks for one repaint and leaves the cubes
    and the rotation axis as they are. *)
Theorem EventsGL_frame_after_turnAround
        (ops : CameraOps) (e : EventsGL.EventsGL) (x y : Q) :
  let turned := EventsGL.turnAround x y e in
  let cam := lookAround x y true (EventsGL.camera e) in
  uniforms_set "view" (calls_of EventsGL.paintGL turned)
  = (if EventsGL.height e =? 0 then [] else [UViewMatrixOf cam])
  /\ uniforms_set "projection" (calls_of EventsGL.paintGL turned)
     = (if EventsGL.height e =? 0 then []
        else [UMatrix [perspective (zoom cam)
                         (inject_Z (EventsGL.width e)
                          / inject_Z (EventsGL.height e))%Q 0.2 100.0]])
  /\ EventsGL.pending_updates turned = S (EventsGL.pending_updates e)
  /\ EventsGL.cubeCoords turned = EventsGL.cubeCoords e
  /\ EventsGL.rotateVector turned = EventsGL.rotateVector e.
Proof.
  cbv zeta.
  rewrite !EventsGL_paintGL_uniforms by reflexivity.
  repeat split; reflexivity.
Qed.

(** X11: a frame of the events widget, with its textures and a height,
    returns having drawn the cubes of [cubeCoords] one by one, 36 vertices
    each; at the [i]-th draw call the [model] uniform is the identity
    matrix after [translate(cubeCoords[i])] and
    [rotate(30 * i, self.rotateVector)].  It leaves program and buffer
    released. *)
Theorem EventsGL_frame_draws_the_cubes
        (e : EventsGL.EventsGL) (t1 t2 : TexName) (i : nat) (b : Bound) :
  EventsGL.texture1 e = Some t1 ->
  EventsGL.texture2 e = Some t2 ->
  EventsGL.height e <> 0 ->
  let calls := calls_of EventsGL.paintGL e in
  outcome_of EventsGL.paintGL e = Returned tt
  /\ List.length (draw_arrays calls) = List.length (EventsGL.cubeCoords e)
  /\ nth_error (draws_with_model None calls) i =
     option_map
       (fun pos =>
          (Some (UMatrix [translate pos;
                          rotate (30 * Z.of_nat i) (EventsGL.rotateVector e)]),
           (pygl.GL_TRIANGLES, 0, 36)))
       (nth_error (EventsGL.cubeCoords e) i)
  /\ in_order b calls = Some (mkBound false false true).
Proof.
  intros H1 H2 Hh. cbv zeta. unfold outcome_of, calls_of.
  rewrite (@EventsGL_paintGL_run e t1 t2 H1 H2 Hh). cbn [fst snd].
  split; [reflexivity|]. split; [|split].
  - unfold draw_arrays. rewrite !filter_map_app.
    cbn [filter_map draw_arrays_of app].
    fold (draw_arrays (loop_calls
            (body_calls t1 t2 0 1 36 (EventsGL.rotateVector e)) 0
            (EventsGL.cubeCoords e))).
    rewrite draw_arrays_loop, app_nil_r, repeat_length. reflexivity.
  - cbn [app draws_with_model]. simpl String.eqb. cbv iota.
    rewrite draws_with_model_loop by reflexivity.
    rewrite expected_draws_nth. reflexivity.
  - cbn [app in_order step_bound program_is_bound vbo_is_bound vao_is_bound].
    rewrite in_order_app, in_order_loop. reflexivity.
Qed.

Lemma EventsGL_frame_draws_the_cubes_witness :
  let calls := calls_of EventsGL.paintGL Example.events_ready in
  outcome_of EventsGL.paintGL Example.events_ready = Returned tt
  /\ List.length (draw_arrays calls) = 10%nat
  /\ nth_error (draws_with_model None calls) 2 =
     Some (Some (UMatrix [translate (vec3 (-1.5) (-2.2) (-2.5));
                          rotate 60 (vec3 0.7 0.2 0.5)]),
           (pygl.GL_TRIANGLES, 0, 36))
  /\ in_order (mkBound false false false) calls
     = Some (mkBound false false true).
Proof.
  refine (@EventsGL_frame_draws_the_cubes Example.events_ready texture1_obj
            texture2_obj 2%nat (mkBound false false false)
            eq_refl eq_refl _).
  simpl. discriminate.
Defined.

(** X9: a frame draws all the cubes or none: when [paintGL] returns it has
    made one draw call per cube, when it raises (no height, or a texture
    still [None]) it has made none.  This holds for both widgets. *)
Theorem frames_draw_all_or_nothing (c : Cube.CubeGL) (e : EventsGL.EventsGL) :
  draw_arrays (calls_of Cube.paintGL c) =
    match outcome_of Cube.paintGL c with
    | Returned _ =>
        repeat (pygl.GL_TRIANGLES, 0, size (Cube.cubeVertices c))
               (List.length (Cube.cubeCoords c))
    | Raised _ => []
    end
  /\ draw_arrays (calls_of EventsGL.paintGL e) =
    match outcome_of EventsGL.paintGL e with
    | Returned _ =>
        repeat (pygl.GL_TRIANGLES, 0, 36)
               (List.length (EventsGL.cubeCoords e))
    | Raised _ => []
    end.
Proof.
  split.
  - destruct (Cube.texture1 c) as [t1|] eqn:H1;
      [destruct (Cube.texture2 c) as [t2|] eqn:H2|].
    + unfold calls_of, outcome_of.
      rewrite (@Cube_paintGL_run c t1 t2 H1 H2). cbn [fst snd].
      unfold draw_arrays. rewrite !filter_map_app.
      cbn [filter_map draw_arrays_of app].
      fold (draw_arrays (loop_calls
              (body_calls t1 t2 (Cube.texUnit1 c) (Cube.texUnit2 c)
                 (size (Cube.cubeVertices c)) (vec3 0.7 0.2 0.5)) 0
              (Cube.cubeCoords c))).
      rewrite draw_arrays_loop, app_nil_r. reflexivity.
    + destruct c as [cam im1 im2 vb o1 o2 u1 u2 verts coords w h].
      simpl in H1, H2. subst o1 o2.
      destruct coords; reflexivity.
    + destruct c as [cam im1 im2 vb o1 o2 u1 u2 verts coords w h].
      simpl in H1. subst o1.
      destruct coords; reflexivity.
  - rewrite EventsGL_paintGL_outcome.
    destruct (EventsGL.height e =? 0) eqn:Hh.
    + unfold calls_of, EventsGL.paintGL, bind, eval, py_truediv. simpl.
      rewrite Hh. reflexivity.
    + destruct (EventsGL.texture1 e) as [t1|] eqn:H1;
        [destruct (EventsGL.texture2 e) as [t2|] eqn:H2|].
      * apply Z.eqb_neq in Hh. unfold calls_of.
        rewrite (@EventsGL_paintGL_run e t1 t2 H1 H2 Hh). cbn [fst snd].
        unfold draw_arrays. rewrite !filter_map_app.
        cbn [filter_map draw_arrays_of app].
        fold (draw_arrays (loop_calls
                (body_calls t1 t2 0 1 36 (EventsGL.rotateVector e)) 0
                (EventsGL.cubeCoords e))).
        rewrite draw_arrays_loop, app_nil_r. reflexivity.
      * destruct e as [cam coords rv vb o1 o2 w h n].
        simpl in H1, H2, Hh. subst o1 o2.
        unfold calls_of, EventsGL.paintGL, bind, eval, py_truediv. simpl.
        rewrite Hh. destruct coords; reflexivity.
      * destruct e as [cam coords rv vb o1 o2 w h n].
        simpl in H1, Hh. subst o1.
        unfold calls_of, EventsGL.paintGL, bind, eval, py_truediv. simpl.
        rewrite Hh. destruct coords; reflexivity.
Qed.

(** X12: a frame of the events widget with no height ends on
    [ZeroDivisionError] after four calls, before any uniform is set or
    cube drawn; nothing is released: the buffer and the program stay
    bound, and the widget is otherwise as it was. *)
Theorem EventsGL_frame_zero_height (e : EventsGL.EventsGL) (b : Bound) :
  EventsGL.height e = 0 ->
  calls_of EventsGL.paintGL e
  = [glClear (Z.lor pygl.GL_COLOR_BUFFER_BIT pygl.GL_DEPTH_BUFFER_BIT);
     vao_bind; vbo_bind; program_bind]
  /\ state_after EventsGL.paintGL e
     = EventsGL.put_vbo
         (mkBuffer (buf_created (EventsGL.vbo e)) true
                   (buf_data (EventsGL.vbo e)) (buf_bytes (EventsGL.vbo e)))
         e
  /\ in_order b (calls_of EventsGL.paintGL e) = Some (mkBound true true true).
Proof.
  intros Hh.
  unfold calls_of, state_after, EventsGL.paintGL, bind, eval, py_truediv.
  simpl. rewrite Hh. simpl. repeat split; reflexivity.
Qed.

Lemma EventsGL_frame_zero_height_witness :
  calls_of EventsGL.paintGL Example.events_flat
  = [glClear 16640; vao_bind; vbo_bind; program_bind]
  /\ buf_bound (EventsGL.vbo (state_after EventsGL.paintGL Example.events_flat))
     = true.
Proof.
  destruct (EventsGL_frame_zero_height Example.events_flat
              (mkBound false false false) eq_refl) as (Hc & Hs & _).
  split; [exact Hc|]. rewrite Hs. reflexivity.
Defined.

(* ================================================================== *)
(** * 06-events: what the window keeps *)

Lemma totalQ_app (l : list Q) (q : Q) :
  (totalQ (l ++ [q]) == totalQ l + q)%Q.
Proof.
  induction l as [|a l IH]; simpl.
  - ring.
  - rewrite IH. ring.
Qed.

Lemma setValue_unchanged (v : Z) (q : QSlider) :
  snd (setValue v q) = false -> value (fst (setValue v q)) = value q.
Proof.
  unfold setValue. cbn [fst snd value]. intros Hc.
  apply negb_false_iff, Z.eqb_eq in Hc. exact Hc.
Qed.

Lemma init_tracks (q1 q2 q3 q4 q5 : QSlider) :
  let w := init q1 q2 q3 q4 q5 [] in
  window_tracks (value (camX w)) (value (camY w)) w.
Proof.
  cbv zeta. unfold window_tracks, init.
  cbn [camX camY lastCamXVal lastCamYVal glWidget].
  rewrite !Z.sub_diag. repeat split; reflexivity.
Qed.

Lemma moveGLCamera_tracks (x0 y0 : Z) (d : string)
      (w : EventAppWindow (list WidgetCall)) :
  window_tracks x0 y0 w -> window_tracks x0 y0 (moveGLCamera d w).
Proof.
  intros (Hx & Hy & H1 & Hsx & Hsy). unfold window_tracks, moveGLCamera.
  cbn [camX camY lastCamXVal lastCamYVal glWidget put_glWidget
       widget_moveCamera recording_widget].
  unfold turn_xs, turn_ys in *. rewrite forallb_app, !filter_map_app, H1.
  cbn [filter_map forallb turns_one_axis andb]. rewrite !app_nil_r. auto.
Qed.

Lemma rotateCubes_tracks (x0 y0 : Z) (w : EventAppWindow (list WidgetCall)) :
  window_tracks x0 y0 w -> window_tracks x0 y0 (rotateCubes w).
Proof.
  intros (Hx & Hy & H1 & Hsx & Hsy). unfold window_tracks, rotateCubes.
  cbn [camX camY lastCamXVal lastCamYVal glWidget put_glWidget
       widget_rotateCubes recording_widget].
  unfold turn_xs, turn_ys in *. rewrite forallb_app, !filter_map_app, H1.
  cbn [filter_map forallb turns_one_axis andb]. rewrite !app_nil_r. auto.
Qed.

Lemma float_sum (a b c : Z) (s : Q) :
  (s == py_float (a - c))%Q -> (s + py_float (b - a) == py_float (b - c))%Q.
Proof.
  intros Hs. rewrite Hs. unfold py_float. rewrite <- inject_Z_plus.
  replace (a - c + (b - a)) with (b - c) by lia. reflexivity.
Qed.

Lemma float_sum_zero (a c : Z) (s : Q) :
  (s == py_float (a - c))%Q -> (s + py_float (a - a) == py_float (a - c))%Q.
Proof. apply float_sum. Qed.

Lemma slide_tracks (x0 y0 : Z) (s : SliderName) (v : Z)
      (w : EventAppWindow (list WidgetCall)) :
  window_tracks x0 y0 w -> window_tracks x0 y0 (handle (slide s v) w).
Proof.
  intros (Hx & Hy & H1 & Hsx & Hsy). unfold handle.
  pose proof (setValue_unchanged v (slider s w)) as Hun.
  destruct (setValue v (slider s w)) as [q changed]. cbn [fst snd] in Hun.
  destruct changed.
  - rewrite emit_valueChanged. destruct s.
    + unfold window_tracks, turnCameraX.
      cbn [camX camY lastCamXVal lastCamYVal glWidget put_glWidget put_slider
           put_lastCamXVal widget_turnAround recording_widget].
      unfold turn_xs, turn_ys in *. rewrite forallb_app, !filter_map_app, H1.
      cbn [filter_map forallb turns_one_axis andb].
      rewrite !totalQ_app, <- Hy, Z.sub_diag.
      change (Qeq_bool (py_float 0) 0) with true. rewrite orb_true_r.
      split; [reflexivity|]. split; [reflexivity|].
      split; [reflexivity|]. split.
      * apply float_sum, Hsx.
      * rewrite Hsy. unfold py_float. simpl. ring.
    + unfold window_tracks, turnCameraY.
      cbn [camX camY lastCamXVal lastCamYVal glWidget put_glWidget put_slider
           put_lastCamYVal widget_turnAround recording_widget].
      unfold turn_xs, turn_ys in *. rewrite forallb_app, !filter_map_app, H1.
      cbn [filter_map forallb turns_one_axis andb].
      rewrite !totalQ_app, <- Hx, Z.sub_diag.
      change (Qeq_bool (py_float 0) 0) with true. cbn [orb andb].
      split; [reflexivity|]. split; [reflexivity|].
      split; [reflexivity|]. split.
      * rewrite Hsx. unfold py_float. simpl. ring.
      * apply float_sum, Hsy.
    + apply rotateCubes_tracks. repeat split; assumption.
    + apply rotateCubes_tracks. repeat split; assumption.
    + apply rotateCubes_tracks. repeat split; assumption.
  - specialize (Hun eq_refl). unfold window_tracks.
    destruct s; cbn [camX camY lastCamXVal lastCamYVal glWidget put_slider
                     slider] in *; rewrite ?Hun; repeat split; assumption.
Qed.

Lemma run_tracks (x0 y0 : Z) (es : list UIEvent) :
  forall w : EventAppWindow (list WidgetCall),
    window_tracks x0 y0 w -> window_tracks x0 y0 (run es w).
Proof.
  induction es as [|e es IH]; intros w Hw; [assumption|].
  apply IH. destruct e as [b|s v].
  - unfold handle. rewrite emit_clicked. apply moveGLCamera_tracks, Hw.
  - apply slide_tracks, Hw.
Qed.

(** X13: the last values follow the sliders: after the constructor and any
    sequence of UI events, [lastCamXVal] is the value [camX] holds and
    [lastCamYVal] the value [camY] holds.  So the second offset that
    [turnCameraX] and [turnCameraY] compute is always zero: every
    [turnAround] call the widget receives turns about one axis. *)
Theorem window_last_values_follow_sliders
        (camX0 camY0 xSlider0 ySlider0 zSlider0 : QSlider)
        (es : list UIEvent) :
  let w := run es (init camX0 camY0 xSlider0 ySlider0 zSlider0 []) in
  lastCamXVal w = value (camX w)
  /\ lastCamYVal w = value (camY w)
  /\ forallb turns_one_axis (glWidget w) = true.
Proof.
  cbv zeta.
  destruct (run_tracks es (init_tracks camX0 camY0 xSlider0 ySlider0 zSlider0))
    as (Hx & Hy & H1 & _).
  auto.
Qed.

(** X14: the turns add up to the way the sliders went: after any sequence of
    UI events, the x offsets forwarded to [turnAround] since the
    constructor add up to the value of [camX] now minus its value then,
    and the y offsets to the same difference for [camY]; both sums stay
    within [-360, 360]. *)
Theorem turns_add_up_to_slider_travel
        (camX0 camY0 xSlider0 ySlider0 zSlider0 : QSlider)
        (es : list UIEvent) :
  let w0 := init camX0 camY0 xSlider0 ySlider0 zSlider0 [] in
  let w := run es w0 in
  (totalQ (turn_xs (glWidget w))
   == py_float (value (camX w) - value (camX w0)))%Q
  /\ (totalQ (turn_ys (glWidget w))
      == py_float (value (camY w) - value (camY w0)))%Q
  /\ in_offset_rangeQ (py_float (value (camX w) - value (camX w0))) = true
  /\ in_offset_rangeQ (py_float (value (camY w) - value (camY w0))) = true.
Proof.
  cbv zeta.
  destruct (run_tracks es (init_tracks camX0 camY0 xSlider0 ySlider0 zSlider0))
    as (Hx & Hy & _ & Hsx & Hsy).
  pose proof (init_ok camX0 camY0 xSlider0 ySlider0 zSlider0) as H0.
  pose proof (run_ok es H0) as (Hs & _).
  destruct H0 as (Hs0 & _).
  pose proof (Hs CamX) as (_ & _ & Hcx). pose proof (Hs CamY) as (_ & _ & Hcy).
  pose proof (Hs0 CamX) as (_ & _ & Hcx0).
  pose proof (Hs0 CamY) as (_ & _ & Hcy0).
  cbn [slider] in Hcx, Hcy, Hcx0, Hcy0.
  rewrite Hx in Hsx. rewrite Hy in Hsy.
  split; [exact Hsx|]. split; [exact Hsy|].
  split; apply in_offset_rangeQ_float; lia.
Qed.
